(** * payu.scheduler.pbs: a shallow embedding and its verified properties

  The module [src/payu/scheduler/pbs.py] builds [qsub] command lines and
  parses [qstat] output.  Python text is modelled by [string] (one [ascii]
  per code point below 256), Python sets of text by [gset string], the
  result of [get_qstat_info] by [gmap string (gmap string string)], and
  exceptions and [sys.exit] by an explicit outcome type threaded through a
  small state monad over the process environment and standard output. *)

From Stdlib Require Import ZArith Ascii String List Lia.
From stdpp Require Import base option list gmap strings pretty.

Local Open Scope string_scope.

(** ** Python [str] operations used by the module *)

Module Str.

(** [s.startswith(pre)] *)
Fixpoint startswith (s pre : string) {struct pre} : bool :=
  match pre with
  | EmptyString => true
  | String a pre' =>
      match s with
      | EmptyString => false
      | String b s' => if Ascii.eqb a b then startswith s' pre' else false
      end
  end.

(** [s.endswith(suf)] for a single character *)
Fixpoint endswith_char (s : string) (c : ascii) : bool :=
  match s with
  | EmptyString => false
  | String a EmptyString => Ascii.eqb a c
  | String _ s' => endswith_char s' c
  end.

(** [sub in s] *)
Fixpoint contains (sub s : string) : bool :=
  (startswith s sub ||
   match s with
   | EmptyString => false
   | String _ s' => contains sub s'
   end)%bool.

(** [s[:n]] *)
Fixpoint take (n : nat) (s : string) : string :=
  match n, s with
  | S k, String c s' => String c (take k s')
  | _, _ => EmptyString
  end.

(** [sep.join(l)] *)
Fixpoint join (sep : string) (l : list string) : string :=
  match l with
  | [] => EmptyString
  | [x] => x
  | x :: l' => x +:+ sep +:+ join sep l'
  end.

(** [s.split(sep)] for a non-empty separator: [skip] counts the characters
    of a separator occurrence that are still to be passed over; the head
    of the result is the segment being read. *)
Fixpoint split_go (sep : string) (skip : nat) (s : string) : list string :=
  match s with
  | EmptyString => [EmptyString]
  | String c s' =>
      match skip with
      | S k => split_go sep k s'
      | O =>
          if startswith s sep
          then EmptyString :: split_go sep (String.length sep - 1) s'
          else match split_go sep 0 s' with
               | seg :: rest => String c seg :: rest
               | [] => [String c EmptyString]
               end
      end
  end.

Definition split (sep s : string) : list string := split_go sep 0 s.

(** [s[n:]] *)
Fixpoint drop (n : nat) (s : string) : string :=
  match n, s with
  | S k, String _ s' => drop k s'
  | _, _ => s
  end.

(** The first occurrence of [sep] in [s]: the text before and after it. *)
Fixpoint partition_go (sep : string) (s : string) : option (string * string) :=
  match s with
  | EmptyString => None
  | String c s' =>
      if startswith s sep
      then Some (EmptyString, drop (String.length sep) s)
      else match partition_go sep s' with
           | Some (a, b) => Some (String c a, b)
           | None => None
           end
  end.

(** [s.split(sep, 1)] for a non-empty separator *)
Definition split1 (sep s : string) : list string :=
  match partition_go sep s with
  | Some (a, b) => [a; b]
  | None => [s]
  end.

(** [s.replace(old, new)] for a non-empty [old] *)
Fixpoint replace_go (old new : string) (skip : nat) (s : string) : string :=
  match s with
  | EmptyString => EmptyString
  | String c s' =>
      match skip with
      | S k => replace_go old new k s'
      | O =>
          if startswith s old
          then new +:+ replace_go old new (String.length old - 1) s'
          else String c (replace_go old new 0 s')
      end
  end.

Definition replace (old new s : string) : string := replace_go old new 0 s.

(** [str.isspace] on one character, for code points below 256 *)
Definition is_space (c : ascii) : bool :=
  let n := nat_of_ascii c in
  ((Nat.leb 9 n && Nat.leb n 13) || (Nat.leb 28 n && Nat.leb n 32)
   || Nat.eqb n 133 || Nat.eqb n 160)%bool.

Fixpoint lstrip (s : string) : string :=
  match s with
  | EmptyString => EmptyString
  | String c s' => if is_space c then lstrip s' else s
  end.

Fixpoint rstrip (s : string) : string :=
  match s with
  | EmptyString => EmptyString
  | String c s' =>
      match rstrip s' with
      | EmptyString => if is_space c then EmptyString else String c EmptyString
      | r => String c r
      end
  end.

Definition strip (s : string) : string := rstrip (lstrip s).

(** [re.sub(c, '', s)] for a pattern that is one literal character *)
Fixpoint remove_char (c : ascii) (s : string) : string :=
  match s with
  | EmptyString => EmptyString
  | String a s' => if Ascii.eqb a c then remove_char c s' else String a (remove_char c s')
  end.

(** [s[s.rfind(c) + 1:]] and [s[:s.rfind(c) + 1]] *)
Fixpoint after_last (c : ascii) (s : string) : string :=
  match s with
  | EmptyString => EmptyString
  | String a s' =>
      if contains (String c EmptyString) s' then after_last c s'
      else if Ascii.eqb a c then s' else s
  end.

Fixpoint upto_last (c : ascii) (s : string) : string :=
  match s with
  | EmptyString => EmptyString
  | String a s' =>
      if contains (String c EmptyString) s' then String a (upto_last c s')
      else if Ascii.eqb a c then String a EmptyString else EmptyString
  end.

(** The characters of [s], each as a one-character text (iterating a [str]) *)
Fixpoint chars (s : string) : list string :=
  match s with
  | EmptyString => []
  | String c s' => String c EmptyString :: chars s'
  end.

End Str.

(** ** [posixpath] *)

Module Path.

Definition sep : string := "/".

Definition isabs (p : string) : bool := Str.startswith p sep.

(** [os.path.join(a, b)] *)
Definition join (a b : string) : string :=
  if Str.startswith b sep then b
  else if (String.eqb a "" || Str.endswith_char a "/"%char)%bool then a +:+ b
  else a +:+ sep +:+ b.

(** [os.path.join(a, *rest)] *)
Definition join_all (a : string) (rest : list string) : string :=
  fold_left join rest a.

Definition basename (p : string) : string := Str.after_last "/"%char p.

Fixpoint all_sep (s : string) : bool :=
  match s with
  | EmptyString => true
  | String c s' => (Ascii.eqb c "/"%char && all_sep s')%bool
  end.

Fixpoint rstrip_sep (s : string) : string :=
  match s with
  | EmptyString => EmptyString
  | String c s' =>
      match rstrip_sep s' with
      | EmptyString => if Ascii.eqb c "/"%char then EmptyString else String c EmptyString
      | r => String c r
      end
  end.

Definition dirname (p : string) : string :=
  let head := Str.upto_last "/"%char p in
  if (negb (String.eqb head "") && negb (all_sep head))%bool
  then rstrip_sep head else head.

(** The loop of [normpath] over the components, [acc] being [new_comps]
    with its last element first. *)
Fixpoint norm_comps (initial_slashes : nat) (acc : list string)
    (comps : list string) : list string :=
  match comps with
  | [] => rev acc
  | comp :: comps' =>
      if (String.eqb comp "" || String.eqb comp ".")%bool
      then norm_comps initial_slashes acc comps'
      else if (negb (String.eqb comp "..")
               || (Nat.eqb initial_slashes 0 && match acc with [] => true | _ => false end)
               || match acc with last :: _ => String.eqb last ".." | [] => false end)%bool
      then norm_comps initial_slashes (comp :: acc) comps'
      else match acc with
           | _ :: acc' => norm_comps initial_slashes acc' comps'
           | [] => norm_comps initial_slashes acc comps'
           end
  end.

Definition normpath (path : string) : string :=
  if String.eqb path "" then "."
  else
    let initial_slashes :=
      if Str.startswith path sep
      then if (Str.startswith path "//" && negb (Str.startswith path "///"))%bool
           then 2 else 1
      else 0 in
    let comps := norm_comps initial_slashes [] (Str.split sep path) in
    let path' := Str.join sep comps in
    let path'' :=
      match initial_slashes with
      | 0 => path'
      | 1 => sep +:+ path'
      | _ => sep +:+ sep +:+ path'
      end in
    if String.eqb path'' "" then "." else path''.

(** [os.path.abspath], the working directory being [cwd] *)
Definition abspath (cwd path : string) : string :=
  normpath (if isabs path then path else join cwd path).

(** [len(commonprefix([l1, l2]))] on two lists of components *)
Fixpoint common_len (l1 l2 : list string) : nat :=
  match l1, l2 with
  | x :: l1', y :: l2' => if String.eqb x y then S (common_len l1' l2') else 0
  | _, _ => 0
  end.

Definition nonempty (s : string) : bool := negb (String.eqb s "").

(** [os.path.relpath(path, start)]; [None] is [ValueError("no path specified")] *)
Definition relpath (cwd path start : string) : option string :=
  if String.eqb path "" then None
  else
    let start_list := List.filter nonempty (Str.split sep (abspath cwd start)) in
    let path_list := List.filter nonempty (Str.split sep (abspath cwd path)) in
    let i := common_len start_list path_list in
    let rel_list :=
      (repeat ".." (length start_list - i) ++ skipn i path_list)%list in
    match rel_list with
    | [] => Some "."
    | x :: rest => Some (join_all x rest)
    end.

End Path.


(** ** Python values, exceptions and effects *)

(** Configuration values as the YAML loader hands them to this module:
    null, booleans, integers, text, lists of text, and the storage mapping
    (mount point to list of project codes, in insertion order).  Floating
    point numbers are left out. *)
Inductive pyval :=
| VNone
| VBool (b : bool)
| VInt (z : Z)
| VStr (s : string)
| VStrList (l : list string)
| VStorage (d : list (string * list string)).

Inductive exn :=
| KeyError
| ValueError
| TypeError
| AssertionError
| OSError
| CalledProcessError
| UnicodeDecodeError.

(** How a call ends: it returns, raises, or leaves through [sys.exit]. *)
Inductive outcome (A : Type) :=
| Returned (a : A)
| Raised (e : exn)
| Exited (code : Z).
Arguments Returned {A} a.
Arguments Raised {A} e.
Arguments Exited {A} code.

Definition obind {A B} (x : outcome A) (f : A -> outcome B) : outcome B :=
  match x with
  | Returned a => f a
  | Raised e => Raised e
  | Exited c => Exited c
  end.

#[global] Instance outcome_ret : MRet outcome := fun A a => Returned a.
#[global] Instance outcome_bind : MBind outcome := fun A B f x => obind x f.

(** [for x in l: acc = f(acc, x)], stopping at the first exception *)
Fixpoint ofold {A B} (f : A -> B -> outcome A) (acc : A) (l : list B) : outcome A :=
  match l with
  | [] => Returned acc
  | x :: l' => acc' ← f acc x; ofold f acc' l'
  end.

Module Py.

(** [bool(v)] *)
Definition truthy (v : pyval) : bool :=
  match v with
  | VNone => false
  | VBool b => b
  | VInt z => negb (Z.eqb z 0)
  | VStr s => negb (String.eqb s "")
  | VStrList l => match l with [] => false | _ => true end
  | VStorage d => match d with [] => false | _ => true end
  end.

Definition hex_digit (n : nat) : string :=
  String.substring n 1 "0123456789abcdef".

(** [str.isprintable] on one character, for code points below 256 *)
Definition is_printable (c : ascii) : bool :=
  let n := nat_of_ascii c in
  (Nat.leb 32 n && negb (Nat.leb 127 n && Nat.leb n 160) && negb (Nat.eqb n 173))%bool.

Definition repr_char (quote : ascii) (c : ascii) : string :=
  if (Ascii.eqb c quote || Ascii.eqb c "\"%char)%bool then String "\"%char (String c "")
  else if Ascii.eqb c "009"%char then "\t"
  else if Ascii.eqb c "010"%char then "\n"
  else if Ascii.eqb c "013"%char then "\r"
  else if is_printable c then String c ""
  else "\x" +:+ hex_digit (nat_of_ascii c / 16) +:+ hex_digit (nat_of_ascii c mod 16).

Fixpoint repr_body (quote : ascii) (s : string) : string :=
  match s with
  | EmptyString => EmptyString
  | String c s' => repr_char quote c +:+ repr_body quote s'
  end.

(** [repr(s)] of a text *)
Definition repr_str (s : string) : string :=
  let quote :=
    if (Str.contains "'" s && negb (Str.contains (String "034"%char "") s))%bool
    then "034"%char else "'"%char in
  String quote (repr_body quote s) +:+ String quote "".

Definition repr_list (l : list string) : string :=
  "[" +:+ Str.join ", " (map repr_str l) +:+ "]".

(** [str(v)], which is what ['{}'.format(v)] inserts *)
Definition str (v : pyval) : string :=
  match v with
  | VNone => "None"
  | VBool true => "True"
  | VBool false => "False"
  | VInt z => pretty z
  | VStr s => s
  | VStrList l => repr_list l
  | VStorage d =>
      "{" +:+ Str.join ", " (map (fun kv => repr_str kv.1 +:+ ": " +:+ repr_list kv.2) d) +:+ "}"
  end.

(** [iter(v)] over a configuration value: the characters of a text, the
    elements of a list, the keys of a mapping. *)
Definition iter (v : pyval) : outcome (list string) :=
  match v with
  | VStr s => Returned (Str.chars s)
  | VStrList l => Returned l
  | VStorage d => Returned (map fst d)
  | VNone | VBool _ | VInt _ => Raised TypeError
  end.

(** [a, b = s] for a text [s]: it must have exactly two characters. *)
Definition unpack2 (s : string) : outcome (string * string) :=
  match Str.chars s with
  | [a; b] => Returned (a, b)
  | _ => Raised ValueError
  end.

(** [v[:n]] *)
Definition slice_to (n : nat) (v : pyval) : outcome pyval :=
  match v with
  | VStr s => Returned (VStr (Str.take n s))
  | VStrList l => Returned (VStrList (firstn n l))
  | VNone | VBool _ | VInt _ | VStorage _ => Raised TypeError
  end.

(** [sep.join(l)] on a list of values: every item must be a text. *)
Fixpoint join_vals (sep : string) (l : list pyval) : outcome string :=
  match l with
  | [] => Returned ""
  | [VStr x] => Returned x
  | VStr x :: l' => r ← join_vals sep l'; Returned (x +:+ sep +:+ r)
  | _ :: _ => Raised TypeError
  end.

(** [d.get(key, default)] on an ordered mapping *)
Fixpoint assoc_get {A} (d : list (string * A)) (key : string) (dflt : A) : A :=
  match d with
  | [] => dflt
  | (k, v) :: d' => if String.eqb k key then v else assoc_get d' key dflt
  end.

End Py.

(** ** The process: environment variables, observable effects, and the
    surroundings the module reads *)

Inductive event :=
| EvSetEnv (key value : string)
| EvOpen (path : string)
| EvPrint (line : string).

Record pstate := {
  environ : gmap string string;
  trace : list event
}.

(** A computation that may change the process state, and ends as an
    [outcome]; effects made before an exception stay. *)
Definition M (A : Type) : Type := pstate -> outcome A * pstate.

#[global] Instance M_ret : MRet M := fun A a st => (Returned a, st).
#[global] Instance M_bind : MBind M := fun A B f m st =>
  match m st with
  | (Returned a, st') => f a st'
  | (Raised e, st') => (Raised e, st')
  | (Exited c, st') => (Exited c, st')
  end.

Definition lift {A} (o : outcome A) : M A := fun st => (o, st).
Definition raise {A} (e : exn) : M A := lift (Raised e).
Definition sys_exit {A} (code : Z) : M A := lift (Exited code).

Definition log (ev : event) : M unit := fun st =>
  (Returned tt, {| environ := environ st; trace := trace st ++ [ev] |}).

Definition print (line : string) : M unit := log (EvPrint line).

Definition has_nul (s : string) : bool := Str.contains (String "000"%char "") s.

(** [os.environ[key] = value] on POSIX: [putenv] refuses embedded null
    bytes and a name with ['='] with [ValueError]; for an empty name
    [setenv] fails and [OSError] is raised. *)
Definition environ_set (key value : string) : M unit := fun st =>
  if (has_nul key || has_nul value || Str.contains "=" key)%bool
  then (Raised ValueError, st)
  else if String.eqb key "" then (Raised OSError, st)
  else (Returned tt,
        {| environ := <[key := value]> (environ st);
           trace := trace st ++ [EvSetEnv key value] |}).

(** [os.environ[key]] *)
Definition environ_item (key : string) : M string := fun st =>
  match environ st !! key with
  | Some v => (Returned v, st)
  | None => (Raised KeyError, st)
  end.

(** [try: m / except ValueError: pass] *)
Definition except_value_error (m : M unit) : M unit := fun st =>
  match m st with
  | (Raised ValueError, st') => (Returned tt, st')
  | r => r
  end.

(** [try: m / except IOError: handler], [IOError] being [OSError] *)
Definition except_io_error {A} (m handler : M A) : M A := fun st =>
  match m st with
  | (Raised OSError, st') => handler st'
  | r => r
  end.

(** [for x in l: body(x)] *)
Fixpoint for_each {A} (l : list A) (body : A -> M unit) : M unit :=
  match l with
  | [] => mret tt
  | x :: l' => _ ← body x; for_each l' body
  end.

(** What the module reads from its surroundings.  [read_lines path] is the
    sequence of lines that iterating the opened file yields, each with its
    line end, or [None] when [open] raises [IOError]; [envmod_load] stands
    for [envmod.setup()] followed by [envmod.module('load', 'pbs')]. *)
Record world := {
  platform : string;
  read_lines : string -> option (list string);
  getcwd : string;
  executable : string;
  argv0 : string;
  isfile : string -> bool;
  envmod_load : M unit
}.

(** ** [pbs_env_init] *)

Definition pbs_conf_fpath (w : world) : string :=
  if String.eqb (platform w) "win32"
  then "C:\Program Files\PBS Pro\pbs.conf"
  else "/etc/pbs.conf".

Definition pbs_conf_line (line : string) : M unit :=
  except_value_error
    (match Str.split "=" line with
     | [key; value] => environ_set key (Str.rstrip value)
     | _ => raise ValueError
     end).

(** [open(path)] and the lines of the file *)
Definition open_lines (w : world) (path : string) : M (list string) :=
  _ ← log (EvOpen path);
  match read_lines w path with
  | Some lines => mret lines
  | None => raise OSError
  end.

(** The handler of lines 76-78 also catches an [OSError] raised while the
    lines are read, which ends the loop. *)
Definition pbs_env_init (w : world) : M unit :=
  let fpath := pbs_conf_fpath w in
  _ ← environ_set "PBS_CONF_FILE" fpath;
  except_io_error
    (pbs_conf ← open_lines w fpath;
     for_each pbs_conf pbs_conf_line)
    (_ ← print ("Unable to find PBS_CONF_FILE ... " +:+ fpath);
     sys_exit 1).

(** ** [get_qstat_info] *)

Abbreviation qstatus := (gmap string (gmap string string)).

Definition newline : string := String "010"%char "".
Definition newline_tab : string := String "010"%char (String "009"%char "").

(** What [shlex.split], [subprocess.check_output] and [bytes.decode] make
    of a command line: the decoded output, or the exception raised. *)
Inductive proc_result :=
| Output (text : string)
| Failed (e : exn).

(** The filter of lines 97-100 on one entry; [None] for [projects] or
    [users] is the default argument. *)
Definition entry_kept (projects users : option (list string)) (e : string) : outcome bool :=
  match projects with
  | None => Raised TypeError
  | Some ps =>
      if existsb (fun p => Str.contains ("project = " +:+ p) e) ps
      then Returned true
      else match users with
           | None => Raised TypeError
           | Some us => Returned (existsb (fun u => Str.contains ("Job_Owner = " +:+ u) e) us)
           end
  end.

Definition list_truthy (l : option (list string)) : bool :=
  match l with
  | Some (_ :: _) => true
  | _ => false
  end.

(** [k, v = e.split('\n', 1)] and the pair built from it (lines 102-103) *)
Definition entry_attribs (e : string) : outcome (string * list string) :=
  match Str.split1 newline e with
  | [k; v] =>
      Returned (hd "" (Str.split "." k),
                Str.split newline (Str.replace newline_tab "" v))
  | _ => Raised ValueError
  end.

(** [kk, vv = att.split('=', 1)] and the stripped pair (lines 105-106) *)
Definition att_pair (att : string) : outcome (string * string) :=
  match Str.split1 "=" att with
  | [kk; vv] => Returned (Str.strip kk, Str.strip vv)
  | _ => Raised ValueError
  end.

(** One item of [dict(... for att in v if att)]: an empty [att] is passed
    over, any other is split and stored. *)
Definition attribs_step (d : gmap string string) (att : string)
    : outcome (gmap string string) :=
  if String.eqb att "" then Returned d
  else '(kk, vv) ← att_pair att; Returned (<[kk := vv]> d).

Definition attribs_dict (v : list string) : outcome (gmap string string) :=
  ofold attribs_step ∅ v.

(** The generator pipeline, one entry at a time as the comprehension of
    lines 105-107 draws them. *)
Definition status_step (filtered : bool) (projects users : option (list string))
    (status : qstatus) (e : string) : outcome qstatus :=
  if String.eqb e "" then Returned status
  else
    keep ← (if filtered then entry_kept projects users e else Returned true);
    if keep : bool
    then '(k, v) ← entry_attribs e;
         d ← attribs_dict v;
         Returned (<[k := d]> status)
    else Returned status.

(** The body of [get_qstat_info]: one attempt. *)
Definition qstat_attempt (env : gmap string string) (run : string -> proc_result)
    (qflag header : string) (projects users : option (list string)) : outcome qstatus :=
  match env !! "PBS_EXEC" with
  | None => Raised KeyError
  | Some pbs_exec =>
      let qstat := Path.join_all pbs_exec ["bin"; "qstat"] in
      let cmd := qstat +:+ " " +:+ qflag in
      match run cmd with
      | Failed e => Raised e
      | Output output =>
          let entries := Str.split (header +:+ ": ") output in
          let filtered := (list_truthy projects || list_truthy users)%bool in
          ofold (status_step filtered projects users) ∅ entries
      end
  end.

(** One attempt as the retry wrapper sees it: what the external command
    does, and the time since the first call (in nanoseconds) when the
    attempt ends. *)
Record attempt := {
  elapsed : Z;
  run : string -> proc_result
}.

(** [stop_after_delay(10)] *)
Definition max_delay : Z := 10 * 1000000000.

(** [@retry(stop=stop_after_delay(10), retry_error_callback=lambda a: None)]
    around [body]: a raised exception is retried at once unless the delay
    has passed, then the callback's [None] is returned.  The result is
    [None] only when the recorded attempts run out before the call ends. *)
Fixpoint retry {A} (body : (string -> proc_result) -> outcome A)
    (attempts : list attempt) : option (outcome (option A)) :=
  match attempts with
  | [] => None
  | a :: rest =>
      match body (run a) with
      | Returned r => Some (Returned (Some r))
      | Exited c => Some (Exited c)
      | Raised _ =>
          if (max_delay <=? elapsed a)%Z then Some (Returned None)
          else retry body rest
      end
  end.

Definition get_qstat_info (env : gmap string string) (attempts : list attempt)
    (qflag header : string) (projects users : option (list string))
    : option (outcome (option qstatus)) :=
  retry (fun run => qstat_attempt env run qflag header projects users) attempts.

(** ** [get_job_id] and [get_job_info] *)

Definition get_job_id (env : gmap string string) (short : bool) : string :=
  let jobid := default "" (env !! "PBS_JOBID") in
  if short then hd "" (Str.split "." jobid) else jobid.

(** [get_job_info]: the record of this job, with the key Job_ID added.  The
    indexing [info['Job Id: ...']] raises KeyError when the key is missing;
    the outer [None] is that of [retry]. *)
Definition get_job_info (env : gmap string string) (attempts : list attempt)
    : option (outcome (option (gmap string string))) :=
  let jobid := get_job_id env true in
  if String.eqb jobid "" then Some (Returned None)
  else
    match get_qstat_info env attempts ("-ft " +:+ jobid) "Job Id:" None None with
    | None => None
    | Some info =>
        Some (info ← info;
              match info with
              | None => Returned None
              | Some info =>
                  match info !! ("Job Id: " +:+ jobid) with
                  | None => Raised KeyError
                  | Some info => Returned (Some (<["Job_ID" := jobid]> info))
                  end
              end)
    end.

(** ** [find_mounts] and [generate_command] *)

(** The arguments of [find_mounts] before its [isinstance] checks. *)
Inductive paths_arg :=
| PathList (l : list string)
| OnePath (p : string).

Inductive mounts_arg :=
| MountSet (s : gset string)
| MountList (l : list string).

Definition join_diagnostic : string :=
  "payu: error: unknown qsub IO stream join setting.".

Definition pbs_resources : list string := ["walltime"; "ncpus"; "mem"; "jobfs"].

Section Scheduler.

(** The order in which the interpreter iterates over a set of texts.  It is
    not specified by the language; where a result depends on it, the order
    is only assumed to list the elements of the set. *)
Variable iter_order : gset string -> list string.

(** [for m in mounts: if p.startswith(m): ...; break] for one path [p] *)
Fixpoint scan_mounts (cwd p : string) (ms : list string) (storages : gset string)
    : outcome (gset string) :=
  match ms with
  | [] => Returned storages
  | m :: ms' =>
      if Str.startswith p m
      then match Path.relpath cwd p m with
           | None => Raised ValueError
           | Some rel =>
               let proj_code := hd "" (Str.split Path.sep rel) in
               Returned (storages ∪ {[ Str.join "/" [Str.remove_char "/"%char m; proj_code] ]})
           end
      else scan_mounts cwd p ms' storages
  end.

Definition find_mounts (cwd : string) (paths : paths_arg) (mounts : mounts_arg)
    : outcome (gset string) :=
  let paths := match paths with PathList l => l | OnePath p => [p] end in
  let mounts := match mounts with MountSet s => s | MountList l => list_to_set l end in
  ofold (fun storages p => scan_mounts cwd p (iter_order mounts) storages) ∅ paths.

(** One turn of the loop of lines 192-196 over [storage_config]. *)
Definition storage_step (acc : gset string * gset string) (item : string)
    : outcome (gset string * gset string) :=
  let '(mounts, storages) := acc in
  '(mount, projects) ← Py.unpack2 item;
  let mounts := mounts ∪ {[mount]} in
  let storages :=
    fold_left (fun s project => s ∪ {[mount +:+ "/" +:+ project]})
              (Str.chars projects) storages in
  Returned (mounts, storages).

(** The loop of lines 192-196: iterating [storage_config] and unpacking
    each item. *)
Definition storage_loop (storage_config : pyval) (mounts storages : gset string)
    : outcome (gset string * gset string) :=
  items ← Py.iter storage_config;
  ofold storage_step (mounts, storages) items.

(** One turn of the loop of lines 155-162 over [pbs_resources]. *)
Definition resource_step (pbs_config : gmap string pyval) (pbs_flags : list pyval)
    (res_key : string) : list pyval :=
  let res_val := default VNone (pbs_config !! res_key) in
  let res_flags :=
    if Py.truthy res_val then [res_key +:+ "=" +:+ Py.str res_val] else [] in
  match res_flags with
  | [] => pbs_flags
  | _ => (pbs_flags ++ [VStr ("-l " +:+ Str.join "," res_flags)])%list
  end.

(** [pbs_join in ('oe', 'eo', 'n')] *)
Definition in_join_modes (pbs_join : pyval) : bool :=
  match pbs_join with
  | VStr s => (String.eqb s "oe" || String.eqb s "eo" || String.eqb s "n")%bool
  | _ => false
  end.

(** Lines 139-205: the flag list, the mount set and the storage tokens. *)
Definition build_flags (w : world) (pbs_config : gmap string pyval)
    (pbs_vars : list (string * pyval))
    : M (list pyval * gset string * gset string) :=
  _ ← pbs_env_init w;
  let pbs_flags : list pyval := [] in
  let pbs_queue := default (VStr "normal") (pbs_config !! "queue") in
  let pbs_flags := (pbs_flags ++ [VStr ("-q " +:+ Py.str pbs_queue)])%list in
  env_project ← environ_item "PROJECT";
  let pbs_project := default (VStr env_project) (pbs_config !! "project") in
  let pbs_flags := (pbs_flags ++ [VStr ("-P " +:+ Py.str pbs_project)])%list in
  let pbs_flags := fold_left (resource_step pbs_config) pbs_resources pbs_flags in
  let pbs_jobname :=
    default (VStr (Path.basename (getcwd w))) (pbs_config !! "jobname") in
  pbs_flags ←
    (if Py.truthy pbs_jobname
     then name ← lift (Py.slice_to 15 pbs_jobname);
          mret (pbs_flags ++ [VStr ("-N " +:+ Py.str name)])%list
     else mret pbs_flags);
  let pbs_priority := default VNone (pbs_config !! "priority") in
  let pbs_flags :=
    if Py.truthy pbs_priority
    then (pbs_flags ++ [VStr ("-p " +:+ Py.str pbs_priority)])%list
    else pbs_flags in
  let pbs_flags := (pbs_flags ++ [VStr "-l wd"])%list in
  let pbs_join := default (VStr "n") (pbs_config !! "join") in
  pbs_flags ←
    (if negb (in_join_modes pbs_join)
     then _ ← print join_diagnostic;
          sys_exit (-1)
     else mret (pbs_flags ++ [VStr ("-j " +:+ Py.str pbs_join)])%list);
  let pbs_vstring :=
    Str.join "," (map (fun kv => kv.1 +:+ "=" +:+ Py.str kv.2) pbs_vars) in
  let pbs_flags := (pbs_flags ++ [VStr ("-v " +:+ pbs_vstring)])%list in
  let storages : gset string := ∅ in
  let storage_config := default (VStorage []) (pbs_config !! "storage") in
  let mounts : gset string := {["/scratch"; "/g/data"]} in
  '(mounts, storages) ← lift (storage_loop storage_config mounts storages);
  let pbs_flags_extend := Str.join "+" (iter_order storages) in
  let pbs_flags :=
    if String.eqb pbs_flags_extend "" then pbs_flags
    else (pbs_flags ++ [VStr ("-l storage=" +:+ pbs_flags_extend)])%list in
  let pbs_flags_extend := default VNone (pbs_config !! "qsub_flags") in
  let pbs_flags :=
    if Py.truthy pbs_flags_extend then (pbs_flags ++ [pbs_flags_extend])%list
    else pbs_flags in
  mret (pbs_flags, mounts, storages).

(** Lines 207-213: the script path. *)
Definition resolve_script (w : world) (pbs_script : string)
    (pbs_vars : list (string * pyval)) : M string :=
  if Path.isabs pbs_script then mret pbs_script
  else
    let payu_bin := Py.assoc_get pbs_vars "PAYU_PATH" (VStr (Path.dirname (argv0 w))) in
    match payu_bin with
    | VStr payu_bin =>
        let pbs_script := Path.join payu_bin pbs_script in
        if isfile w pbs_script then mret pbs_script else raise AssertionError
    | _ => raise TypeError
    end.

(** Lines 224-230: the command string. *)
Definition final_command (w : world) (pbs_flags : list pyval) (pbs_script : string)
    : M string :=
  flags ← lift (Py.join_vals " " pbs_flags);
  mret ("qsub " +:+ flags +:+ " -- " +:+ executable w +:+ " " +:+ pbs_script).

Definition generate_command (w : world) (pbs_script : string)
    (pbs_config : gmap string pyval) (pbs_vars : option (list (string * pyval)))
    : M string :=
  let pbs_vars := default [] pbs_vars in
  '(pbs_flags, mounts, storages) ← build_flags w pbs_config pbs_vars;
  pbs_script ← resolve_script w pbs_script pbs_vars;
  found ← lift (find_mounts (getcwd w) (PathList [executable w; pbs_script])
                  (MountSet mounts));
  let storages := storages ∪ found in
  _ ← envmod_load w;
  final_command w pbs_flags pbs_script.

End Scheduler.

Definition sample_world : world := {|
  platform := "linux";
  read_lines := fun p =>
    if String.eqb p "/etc/pbs.conf"
    then Some ["PBS_EXEC=/opt/pbs" +:+ newline; "# comment" +:+ newline]
    else None;
  getcwd := "/home/user/experiment_with_long_name";
  executable := "/g/data/xy99/bin/python";
  argv0 := "/usr/bin/payu";
  isfile := fun _ => true;
  envmod_load := mret tt
|}.

Definition sample_state : pstate :=
  {| environ := {["PROJECT" := "ab12"]}; trace := [] |}.

(** [sample_state] after [pbs_env_init] in [sample_world] *)
Definition sample_state_init : pstate :=
  {| environ :=
       <["PBS_EXEC" := "/opt/pbs"]>
         (<["PBS_CONF_FILE" := "/etc/pbs.conf"]> {["PROJECT" := "ab12"]});
     trace :=
       [EvSetEnv "PBS_CONF_FILE" "/etc/pbs.conf"; EvOpen "/etc/pbs.conf";
        EvSetEnv "PBS_EXEC" "/opt/pbs"] |}.

(** A second attempt list and sample texts used in the statements below. *)

Definition sample_status_text : string :=
  "Job Id: 123.r-man2" +:+ newline +:+
  "    project = ab12" +:+ newline +:+
  "    Job_Owner = alice" +:+ newline.

Definition always_output (text : string) (ns : Z) : attempt :=
  {| elapsed := ns; run := fun _ => Output text |}.

Definition always_failing (e : exn) (ns : Z) : attempt :=
  {| elapsed := ns; run := fun _ => Failed e |}.

Definition pbs_environ : gmap string string := {["PBS_EXEC" := "/opt/pbs"]}.

Definition stray_line_text : string :=
  "Job Id: 1.x" +:+ newline +:+
  "    project = ab12" +:+ newline +:+
  "    garbage" +:+ newline.

Definition two_projects_text : string :=
  "Job Id: 1.x" +:+ newline +:+
  "    project = xy99" +:+ newline +:+
  "Job Id: 2.x" +:+ newline +:+
  "    project = ab12" +:+ newline.




(** Two iteration orders a set may have. *)
Definition trie_order (s : gset string) : list string := elements s.
Definition reverse_order (s : gset string) : list string := rev (elements s).

(** The text of [k] before its first [c]: [k.split(c)[0]] in the words of
    the specification, "truncated at the first [c]". *)
Fixpoint before_first (c : ascii) (k : string) : string :=
  match k with
  | EmptyString => EmptyString
  | String a k' => if Ascii.eqb a c then EmptyString else String a (before_first c k')
  end.

(** ** Notions used in the further properties *)

(** A text that does not begin with whitespace. *)
Definition starts_unspaced (s : string) : Prop :=
  match s with
  | EmptyString => True
  | String c _ => Str.is_space c = false
  end.

(** A mapping whose keys and values are left unchanged by [strip]. *)
Definition stripped_map (d : gmap string string) : Prop :=
  forall k v, d !! k = Some v -> Str.strip k = k /\ Str.strip v = v.

(** The output of a query for the single job 123. *)
Definition job_record_text : string :=
  ("Job Id: " +:+ "123" +:+ "." +:+ "r-man2") +:+ newline +:+
  ("    project = ab12" +:+ newline).

(** Surroundings without a configuration file. *)
Definition no_conf_world : world := {|
  platform := "win32";
  read_lines := fun _ => None;
  getcwd := "/";
  executable := "python";
  argv0 := "payu";
  isfile := fun _ => false;
  envmod_load := mret tt
|}.

(** How many times [c] occurs in [s]. *)
Fixpoint count_char (c : ascii) (s : string) : nat :=
  match s with
  | EmptyString => 0
  | String a s' => (if Ascii.eqb c a then 1 else 0) + count_char c s'
  end.

(** A text made of whitespace only. *)
Fixpoint all_space (s : string) : bool :=
  match s with
  | EmptyString => true
  | String c s' => (Str.is_space c && all_space s')%bool
  end.

(** A storage token of [find_mounts]: a mount of the set without its
    separators, one separator, and a project code without separator. *)
Definition mount_token (mounts : gset string) (tok : string) : Prop :=
  exists m code,
    m ∈ mounts /\ tok = Str.remove_char "/" m +:+ "/" +:+ code
    /\ Str.contains "/" (Str.remove_char "/" m) = false
    /\ Str.contains "/" code = false.

(** The flags in the order in which lines 147-205 append them. *)
Definition resource_flag (pbs_config : gmap string pyval) (res_key : string)
    : list pyval :=
  let res_val := default VNone (pbs_config !! res_key) in
  if Py.truthy res_val
  then [VStr ("-l " +:+ res_key +:+ "=" +:+ Py.str res_val)] else [].

Definition jobname_flag (pbs_jobname : pyval) : outcome (list pyval) :=
  if Py.truthy pbs_jobname
  then name ← Py.slice_to 15 pbs_jobname; Returned [VStr ("-N " +:+ Py.str name)]
  else Returned [].

Definition priority_flag (pbs_priority : pyval) : list pyval :=
  if Py.truthy pbs_priority then [VStr ("-p " +:+ Py.str pbs_priority)] else [].

Definition env_vstring (pbs_vars : list (string * pyval)) : string :=
  Str.join "," (map (fun kv => kv.1 +:+ "=" +:+ Py.str kv.2) pbs_vars).

Definition storage_flag (order : gset string -> list string) (storages : gset string)
    : list pyval :=
  if String.eqb (Str.join "+" (order storages)) "" then []
  else [VStr ("-l storage=" +:+ Str.join "+" (order storages))].

Definition extra_flag (qsub_flags : pyval) : list pyval :=
  if Py.truthy qsub_flags then [qsub_flags] else [].

(** Whether a call ended by returning a value. *)
Definition returned {A} (o : outcome A) : bool :=
  match o with
  | Returned _ => true
  | _ => false
  end.

(** [isinstance(v, str)] *)
Definition is_text (v : pyval) : bool :=
  match v with
  | VStr _ => true
  | _ => false
  end.

(** A token of the storage loop: one character, the separator, one
    character. *)
Definition short_token (tok : string) : Prop :=
  exists a b : ascii, tok = String a (String "/" (String b "")).

(** The state in which the file is read. *)
Definition conf_state (w : world) (st : pstate) : pstate :=
  {| environ := <["PBS_CONF_FILE" := pbs_conf_fpath w]> (environ st);
     trace := trace st ++ [EvSetEnv "PBS_CONF_FILE" (pbs_conf_fpath w);
                           EvOpen (pbs_conf_fpath w)] |}.

(** The state after the message of lines 77-78 is printed. *)
Definition unable_to_find (w : world) (st : pstate) : pstate :=
  {| environ := environ st;
     trace := trace st
              ++ [EvPrint ("Unable to find PBS_CONF_FILE ... " +:+ pbs_conf_fpath w)] |}.


(** * Properties *)

(** ** Text operations *)

Example split_header :
  Str.split "Job Id: " ("Job Id: 1.a" +:+ newline +:+ "Job Id: 2.b" +:+ newline)
  = [""; "1.a" +:+ newline; "2.b" +:+ newline].
Proof. reflexivity. Qed.

Example text_operations :
  Str.split "/" "/a//b/" = [""; "a"; ""; "b"; ""]
  /\ Str.split1 "=" " a = b = c" = [" a "; " b = c"]
  /\ Str.split1 "=" "abc" = ["abc"]
  /\ Str.replace "ab" "X" "aabbabab" = "aXbXX"
  /\ Str.strip ("  a b " +:+ newline) = "a b".
Proof. repeat split; reflexivity. Qed.

Example path_operations :
  Path.normpath "/a/./b/../c//" = "/a/c"
  /\ Path.normpath "a/../.." = ".."
  /\ Path.normpath "//a" = "//a"
  /\ Path.normpath "///a" = "/a"
  /\ Path.relpath "/home/u" "/scratch/ab12/file" "/scratch" = Some "ab12/file"
  /\ Path.relpath "/home/u" "/scratchy/ab12" "/scratch" = Some "../scratchy/ab12"
  /\ Path.relpath "/home/u" "python" "p" = Some "../python"
  /\ Path.dirname "/usr/bin/payu" = "/usr/bin"
  /\ Path.dirname "payu" = ""
  /\ Path.dirname "a//b" = "a"
  /\ Path.basename "/a/b/" = ""
  /\ Path.basename "/a/b" = "b".
Proof. repeat split; reflexivity. Qed.

Example repr_examples :
  Py.str (VStrList ["a"; "x\y"]) = "['a', 'x\\y']"
  /\ Py.str (VStrList ["it's"]) = "[" +:+ String "034"%char "it's" +:+ String "034"%char "]"
  /\ Py.str (VInt (-3)) = "-3".
Proof. repeat split; reflexivity. Qed.

Lemma app_empty_l (s : string) : "" +:+ s = s.
Proof. reflexivity. Qed.

Lemma app_String c (a b : string) : String c a +:+ b = String c (a +:+ b).
Proof. reflexivity. Qed.

Lemma app_str_assoc (a b c : string) : (a +:+ b) +:+ c = a +:+ (b +:+ c).
Proof.
  induction a as [|x a IH]; [reflexivity|]. rewrite !app_String, IH. reflexivity.
Qed.

Lemma contains_char_cons c a s :
  Str.contains (String c "") (String a s)
  = (Ascii.eqb c a || Str.contains (String c "") s)%bool.
Proof. cbn [Str.contains Str.startswith]. destruct (Ascii.eqb c a); reflexivity. Qed.

Lemma partition_char_app c a b :
  Str.contains (String c "") a = false ->
  Str.partition_go (String c "") (a +:+ String c b) = Some (a, b).
Proof.
  induction a as [|x a IH]; intros H.
  - rewrite app_empty_l. cbn [Str.partition_go Str.startswith].
    rewrite Ascii.eqb_refl. reflexivity.
  - rewrite contains_char_cons in H. apply orb_false_elim in H as [Hx Ha].
    rewrite app_String. cbn [Str.partition_go Str.startswith].
    rewrite Hx, (IH Ha). reflexivity.
Qed.

Lemma partition_none sep s :
  Str.contains sep s = false -> Str.partition_go sep s = None.
Proof.
  induction s as [|x s IH]; intros H; [reflexivity|].
  cbn [Str.contains] in H. apply orb_false_elim in H as [H1 H2].
  cbn [Str.partition_go]. rewrite H1, (IH H2). reflexivity.
Qed.

Lemma partition_some sep s :
  s <> "" -> Str.contains sep s = true ->
  exists a b, Str.partition_go sep s = Some (a, b).
Proof.
  induction s as [|x s IH]; intros Hne H; [congruence|].
  cbn [Str.partition_go]. destruct (Str.startswith (String x s) sep) eqn:Hs.
  - eauto.
  - cbn [Str.contains] in H. rewrite Hs in H. cbn in H.
    destruct s as [|y s].
    + cbn in H. destruct sep; [discriminate Hs | discriminate H].
    + destruct (IH ltac:(congruence) H) as (a & b & ->). eauto.
Qed.

Lemma split_char_head c k :
  hd "" (Str.split (String c "") k) = before_first c k.
Proof.
  unfold Str.split. induction k as [|a k IH]; [reflexivity|].
  cbn [Str.split_go Str.startswith before_first].
  rewrite (Ascii.eqb_sym c a). destruct (Ascii.eqb a c); [reflexivity|].
  cbn in IH. destruct (Str.split_go (String c "") 0 k); cbn in *; congruence.
Qed.

(** ** Parsing the status text *)

Lemma entry_attribs_lines k v :
  Str.contains newline k = false ->
  entry_attribs (k +:+ newline +:+ v)
  = Returned (before_first "." k, Str.split newline (Str.replace newline_tab "" v)).
Proof.
  intros Hk. unfold entry_attribs, Str.split1, newline at 1 2.
  rewrite app_String, app_empty_l, (partition_char_app _ _ _ Hk).
  rewrite split_char_head. reflexivity.
Qed.

Lemma att_pair_split kk vv :
  Str.contains "=" kk = false ->
  att_pair (kk +:+ "=" +:+ vv) = Returned (Str.strip kk, Str.strip vv).
Proof.
  intros Hk. unfold att_pair, Str.split1.
  rewrite app_String, app_empty_l, (partition_char_app _ _ _ Hk). reflexivity.
Qed.

(** C4: the sample status text, fetched with header "Job Id" and no
    filters, yields the mapping from "123" to the attributes
    project = ab12 and Job_Owner = alice; in general the key of a block is
    its first line truncated at the first '.', and an attribute line is
    split at its first '=' into two parts that are both stripped of
    surrounding whitespace. *)
Theorem C4_sample_status_parsed
    (env : gmap string string) (pbs_exec qflag : string)
    (a : attempt) (rest : list attempt) (k v kk vv : string) :
  env !! "PBS_EXEC" = Some pbs_exec ->
  (forall cmd, run a cmd = Output sample_status_text) ->
  Str.contains newline k = false ->
  Str.contains "=" kk = false ->
  get_qstat_info env (a :: rest) qflag "Job Id" None None
  = Some (Returned (Some
      {[ "123" := {[ "project" := "ab12"; "Job_Owner" := "alice" ]} ]}))
  /\ entry_attribs (k +:+ newline +:+ v)
     = Returned (before_first "." k,
                 Str.split newline (Str.replace newline_tab "" v))
  /\ att_pair (kk +:+ "=" +:+ vv) = Returned (Str.strip kk, Str.strip vv).
Proof.
  intros Henv Hrun Hk Hkk. split; [|split].
  - unfold get_qstat_info, retry, qstat_attempt. rewrite Henv, Hrun.
    vm_compute. reflexivity.
  - apply entry_attribs_lines, Hk.
  - apply att_pair_split, Hkk.
Qed.

Lemma C4_sample_status_parsed_witness :
  get_qstat_info pbs_environ [always_output sample_status_text 1000000000]
    "-f" "Job Id" None None
  = Some (Returned (Some
      {[ "123" := {[ "project" := "ab12"; "Job_Owner" := "alice" ]} ]}))
  /\ entry_attribs ("123.r-man2" +:+ newline +:+ "    project = ab12")
     = Returned ("123", ["    project = ab12"])
  /\ att_pair "    project = ab12" = Returned ("project", "ab12").
Proof.
  apply (C4_sample_status_parsed pbs_environ "/opt/pbs" "-f"
           (always_output sample_status_text 1000000000) []
           "123.r-man2" "    project = ab12" "    project " " ab12");
    first [reflexivity | intros; reflexivity].
Defined.

(** ** Lines of a block that are not attributes *)

Lemma ofold_app {A B} (f : A -> B -> outcome A) (l1 l2 : list B) (acc : A) :
  ofold f acc (l1 ++ l2)%list = obind (ofold f acc l1) (fun acc' => ofold f acc' l2).
Proof.
  revert acc. induction l1 as [|x l1 IH]; intros acc; [reflexivity|].
  cbn [ofold app]. unfold mbind, outcome_bind.
  destruct (f acc x); cbn [obind]; auto.
Qed.

Lemma attribs_dict_fold v : attribs_dict v = ofold attribs_step ∅ v.
Proof. reflexivity. Qed.

Lemma att_pair_no_equals att :
  Str.contains "=" att = false -> att_pair att = Raised ValueError.
Proof.
  intros H. unfold att_pair, Str.split1. rewrite (partition_none _ _ H). reflexivity.
Qed.

Lemma attribs_step_outcome d att :
  (exists d', attribs_step d att = Returned d') \/ attribs_step d att = Raised ValueError.
Proof.
  unfold attribs_step, att_pair, Str.split1.
  destruct (String.eqb att ""); [eauto|].
  destruct (Str.partition_go "=" att) as [[a b]|]; cbn; eauto.
Qed.

Lemma attribs_step_stray d att :
  att <> "" -> Str.contains "=" att = false -> attribs_step d att = Raised ValueError.
Proof.
  intros Hne Heq. unfold attribs_step. apply String.eqb_neq in Hne.
  rewrite Hne, (att_pair_no_equals _ Heq). reflexivity.
Qed.

(** A loop whose turns raise nothing but [e0] raises [e0] as soon as one
    of its items does so from every state. *)
Lemma ofold_raises {A B} (f : A -> B -> outcome A) (e0 : exn) (l : list B) (x : B) :
  x ∈ l ->
  (forall acc y, (exists acc', f acc y = Returned acc') \/ f acc y = Raised e0) ->
  (forall acc, f acc x = Raised e0) ->
  forall acc, ofold f acc l = Raised e0.
Proof.
  intros Hin Hf Hx. induction Hin as [x l|x y l Hin IH]; intros acc; cbn [ofold].
  - rewrite Hx. reflexivity.
  - destruct (Hf acc y) as [[acc' ->]| ->]; [|reflexivity]. apply (IH Hx).
Qed.

Lemma attribs_dict_stray_line v att :
  att ∈ v -> att <> "" -> Str.contains "=" att = false ->
  attribs_dict v = Raised ValueError.
Proof.
  intros Hin Hne Heq. rewrite attribs_dict_fold.
  apply (ofold_raises _ _ _ _ Hin).
  - intros acc y. apply attribs_step_outcome.
  - intros acc. apply (attribs_step_stray _ _ Hne Heq).
Qed.

Lemma attribs_dict_outcome v :
  (exists d, attribs_dict v = Returned d) \/ attribs_dict v = Raised ValueError.
Proof.
  rewrite attribs_dict_fold. generalize (∅ : gmap string string).
  induction v as [|x v IH]; intros d; cbn [ofold]; [eauto|].
  destruct (attribs_step_outcome d x) as [[d' ->]| ->]; [apply IH|auto].
Qed.

Lemma entry_attribs_outcome e :
  (exists kv, entry_attribs e = Returned kv) \/ entry_attribs e = Raised ValueError.
Proof.
  unfold entry_attribs. destruct (Str.split1 newline e) as [|? [|? [|? ?]]]; eauto.
Qed.

Lemma status_step_unfiltered_outcome ps us status e :
  (exists status', status_step false ps us status e = Returned status')
  \/ status_step false ps us status e = Raised ValueError.
Proof.
  unfold status_step. destruct (String.eqb e ""); [eauto|].
  unfold mbind, outcome_bind. cbn [obind].
  destruct (entry_attribs_outcome e) as [[[k v] ->]| ->]; cbn [obind]; [|auto].
  destruct (attribs_dict_outcome v) as [[d ->]| ->]; cbn [obind]; eauto.
Qed.

Lemma status_step_stray_line ps us status e k v att :
  entry_attribs e = Returned (k, v) ->
  att ∈ v -> att <> "" -> Str.contains "=" att = false ->
  status_step false ps us status e = Raised ValueError.
Proof.
  intros Hkv Hin Hne Heq. unfold status_step.
  destruct (String.eqb e "") eqn:Hemp.
  { apply String.eqb_eq in Hemp. subst e. discriminate Hkv. }
  unfold mbind, outcome_bind. cbn [obind]. rewrite Hkv. cbn [obind].
  rewrite (attribs_dict_stray_line _ _ Hin Hne Heq). reflexivity.
Qed.

(** C3, the claim as stated fails: with a body line "    garbage" that has
    no '=', building the attributes raises ValueError, so every attempt of
    the fetch fails and, once the delay has passed, the fetch returns None
    instead of the mapping with the block's other attribute. *)
Lemma C3_stray_line_counterexample :
  attribs_dict ["    project = ab12"; "    garbage"; ""] = Raised ValueError
  /\ qstat_attempt pbs_environ (fun _ => Output stray_line_text) "-f" "Job Id" None None
     = Raised ValueError
  /\ get_qstat_info pbs_environ
       [always_output stray_line_text 1000000000;
        always_output stray_line_text 11000000000]
       "-f" "Job Id" None None
     = Some (Returned None)
  /\ get_qstat_info pbs_environ
       [always_output stray_line_text 1000000000;
        always_output stray_line_text 11000000000]
       "-f" "Job Id" None None
     <> Some (Returned (Some {[ "1" := {[ "project" := "ab12" ]} ]})).
Proof.
  assert (H : get_qstat_info pbs_environ
       [always_output stray_line_text 1000000000;
        always_output stray_line_text 11000000000]
       "-f" "Job Id" None None
     = Some (Returned None)) by (vm_compute; reflexivity).
  repeat split; try (vm_compute; reflexivity).
  rewrite H. discriminate.
Qed.

(** C3 as amended: an empty body line is skipped when the attributes are
    built, the other lines being treated as before; a non-empty body line
    without '=' is not skipped: it makes the building of the attributes,
    and with it the whole attempt, raise ValueError. *)
Theorem C3_only_empty_lines_skipped
    (v1 v2 v : list string) (att e k : string)
    (env : gmap string string) (pbs_exec qflag header output : string)
    (run : string -> proc_result) :
  att ∈ v -> att <> "" -> Str.contains "=" att = false ->
  env !! "PBS_EXEC" = Some pbs_exec ->
  (forall cmd, run cmd = Output output) ->
  e ∈ Str.split (header +:+ ": ") output ->
  entry_attribs e = Returned (k, v) ->
  attribs_dict (v1 ++ "" :: v2)%list = attribs_dict (v1 ++ v2)%list
  /\ attribs_dict v = Raised ValueError
  /\ qstat_attempt env run qflag header None None = Raised ValueError.
Proof.
  intros Hin Hne Heq Henv Hrun He Hkv. split; [|split].
  - rewrite (attribs_dict_fold (v1 ++ "" :: v2)), (attribs_dict_fold (v1 ++ v2)).
    rewrite !ofold_app. destruct (ofold attribs_step ∅ v1); reflexivity.
  - apply (attribs_dict_stray_line _ _ Hin Hne Heq).
  - unfold qstat_attempt. rewrite Henv, Hrun. cbn [list_truthy orb].
    apply (ofold_raises _ _ _ _ He).
    + intros acc y. apply status_step_unfiltered_outcome.
    + intros acc. apply (status_step_stray_line _ _ _ _ _ _ _ Hkv Hin Hne Heq).
Qed.

Lemma C3_only_empty_lines_skipped_witness :
  attribs_dict (["a = 1"] ++ "" :: ["b = 2"])%list = attribs_dict (["a = 1"] ++ ["b = 2"])%list
  /\ attribs_dict ["    project = ab12"; "    garbage"; ""] = Raised ValueError
  /\ qstat_attempt pbs_environ (fun _ => Output stray_line_text) "-f" "Job Id" None None
     = Raised ValueError.
Proof.
  apply (C3_only_empty_lines_skipped ["a = 1"] ["b = 2"]
           ["    project = ab12"; "    garbage"; ""] "    garbage"
           ("1.x" +:+ newline +:+ "    project = ab12" +:+ newline +:+
            "    garbage" +:+ newline)
           "1" pbs_environ "/opt/pbs" "-f" "Job Id" stray_line_text
           (fun _ => Output stray_line_text)).
  - apply list_elem_of_further, list_elem_of_here.
  - discriminate.
  - reflexivity.
  - reflexivity.
  - intros cmd. reflexivity.
  - vm_compute. apply list_elem_of_further, list_elem_of_here.
  - reflexivity.
Defined.

(** ** The retry wrapper *)

Lemma retry_exhausted {A} (body : (string -> proc_result) -> outcome A)
    (attempts : list attempt) :
  Forall (fun a => exists e, body (run a) = Raised e) attempts ->
  Exists (fun a => (max_delay <= elapsed a)%Z) attempts ->
  retry body attempts = Some (Returned None).
Proof.
  intros Hall Hex. induction Hex as [a rest Ha|a rest Hex IH];
    inversion Hall as [|? ? [e He] Hrest]; subst; cbn [retry]; rewrite He.
  - apply Z.leb_le in Ha. rewrite Ha. reflexivity.
  - destruct (max_delay <=? elapsed a)%Z; [reflexivity|]. apply IH, Hrest.
Qed.

Lemma qstat_attempt_failed env run qflag header projects users :
  (forall cmd, exists e, run cmd = Failed e) ->
  exists e, qstat_attempt env run qflag header projects users = Raised e.
Proof.
  intros Hrun. unfold qstat_attempt. destruct (env !! "PBS_EXEC") as [pbs_exec|]; [|eauto].
  destruct (Hrun (Path.join_all pbs_exec ["bin"; "qstat"] +:+ " " +:+ qflag)) as [e ->].
  eauto.
Qed.

(** C7: when every attempt of the external query fails and the ten
    seconds of the retry budget have passed at one of them, the fetch
    returns None; it raises nothing. *)
Theorem C7_exhausted_retries_return_none
    (env : gmap string string) (attempts : list attempt) (qflag header : string)
    (projects users : option (list string)) :
  Forall (fun a => forall cmd, exists e, run a cmd = Failed e) attempts ->
  Exists (fun a => (max_delay <= elapsed a)%Z) attempts ->
  get_qstat_info env attempts qflag header projects users = Some (Returned None).
Proof.
  intros Hall Hex. unfold get_qstat_info. apply retry_exhausted; [|exact Hex].
  eapply Forall_impl; [exact Hall|]. intros a Ha. cbn beta.
  apply qstat_attempt_failed, Ha.
Qed.

Lemma C7_exhausted_retries_return_none_witness :
  get_qstat_info pbs_environ
    [always_failing CalledProcessError 4000000000;
     always_failing UnicodeDecodeError 9000000000;
     always_failing CalledProcessError 10000000000;
     always_output sample_status_text 12000000000]
    "-f" "Job Id" None None
  = Some (Returned None)
  /\ get_qstat_info pbs_environ
       [always_failing CalledProcessError 4000000000;
        always_failing UnicodeDecodeError 9000000000;
        always_failing CalledProcessError 10000000000]
       "-f" "Job Id" None None
     = Some (Returned None).
Proof.
  split; [vm_compute; reflexivity|].
  apply (C7_exhausted_retries_return_none pbs_environ
           [always_failing CalledProcessError 4000000000;
            always_failing UnicodeDecodeError 9000000000;
            always_failing CalledProcessError 10000000000]
           "-f" "Job Id" None None).
  - repeat constructor; intros cmd; eexists; reflexivity.
  - apply Exists_cons_tl, Exists_cons_tl, Exists_cons_hd. vm_compute. discriminate.
Defined.

(** ** The project and user filters *)

Lemma entry_kept_both ps us e :
  entry_kept (Some ps) (Some us) e
  = Returned (existsb (fun p => Str.contains ("project = " +:+ p) e) ps
              || existsb (fun u => Str.contains ("Job_Owner = " +:+ u) e) us)%bool.
Proof.
  unfold entry_kept. destruct (existsb _ ps); reflexivity.
Qed.

Lemma entry_kept_projects_only ps e :
  entry_kept (Some ps) None e
  = if existsb (fun p => Str.contains ("project = " +:+ p) e) ps
    then Returned true else Raised TypeError.
Proof. reflexivity. Qed.

Lemma entry_kept_users_only us e : entry_kept None (Some us) e = Raised TypeError.
Proof. reflexivity. Qed.

(** C2, evaluated where the code departs from it: with projects = ["xy99"]
    and no users, the block of project ab12 is not left out of a returned
    mapping; testing it iterates over the missing users list, which raises
    TypeError, every attempt fails alike and the fetch returns None.  With
    all blocks matching a project the mapping is returned. *)
Theorem C2_projects_filter_without_users :
  entry_kept (Some ["xy99"]) None
    ("2.x" +:+ newline +:+ "    project = ab12" +:+ newline) = Raised TypeError
  /\ qstat_attempt pbs_environ (fun _ => Output two_projects_text)
       "-f" "Job Id" (Some ["xy99"]) None
     = Raised TypeError
  /\ get_qstat_info pbs_environ
       [always_output two_projects_text 1000000000;
        always_output two_projects_text 11000000000]
       "-f" "Job Id" (Some ["xy99"]) None
     = Some (Returned None)
  /\ get_qstat_info pbs_environ
       [always_output two_projects_text 1000000000]
       "-f" "Job Id" (Some ["xy99"]) (Some [])
     = Some (Returned (Some {[ "1" := {[ "project" := "xy99" ]} ]}))
  /\ get_qstat_info pbs_environ
       [always_output two_projects_text 1000000000]
       "-f" "Job Id" (Some ["xy99"; "ab12"]) None
     = Some (Returned (Some {[ "1" := {[ "project" := "xy99" ]};
                               "2" := {[ "project" := "ab12" ]} ]})).
Proof. repeat split; vm_compute; reflexivity. Qed.

(** ** [pbs_env_init] *)



Lemma environ_set_conf_file w st :
  environ_set "PBS_CONF_FILE" (pbs_conf_fpath w) st
  = (Returned tt,
     {| environ := <["PBS_CONF_FILE" := pbs_conf_fpath w]> (environ st);
        trace := trace st ++ [EvSetEnv "PBS_CONF_FILE" (pbs_conf_fpath w)] |}).
Proof.
  unfold environ_set, pbs_conf_fpath.
  destruct (String.eqb (platform w) "win32"); reflexivity.
Qed.

(** [pbs_env_init] step by step. *)
Lemma pbs_env_init_steps w st :
  pbs_env_init w st
  = match read_lines w (pbs_conf_fpath w) with
    | Some lines =>
        match for_each lines pbs_conf_line (conf_state w st) with
        | (Raised OSError, st') => (Exited 1, unable_to_find w st')
        | r => r
        end
    | None => (Exited 1, unable_to_find w (conf_state w st))
    end.
Proof.
  unfold pbs_env_init. cbv zeta. unfold mbind at 1, M_bind at 1.
  rewrite environ_set_conf_file.
  unfold except_io_error, open_lines, mbind, M_bind, log, conf_state.
  cbn [environ trace]. rewrite <- app_assoc. cbn [app].
  destruct (read_lines w (pbs_conf_fpath w)) as [lines|]; [|reflexivity].
  unfold mret, M_ret.
  destruct (for_each lines pbs_conf_line _) as [[[]|[]|c] st']; reflexivity.
Qed.






(** ** Paths *)

Lemma startswith_refl s : Str.startswith s s = true.
Proof. induction s as [|c s IH]; [reflexivity|]. cbn. rewrite Ascii.eqb_refl. exact IH. Qed.

Lemma startswith_empty m : Str.startswith "" m = true -> m = "".
Proof. destruct m; [reflexivity|discriminate]. Qed.

Lemma common_len_refl l : Path.common_len l l = length l.
Proof.
  induction l as [|x l IH]; [reflexivity|]. cbn. rewrite String.eqb_refl, IH. reflexivity.
Qed.

Lemma relpath_some cwd p m : p <> "" -> exists rel, Path.relpath cwd p m = Some rel.
Proof.
  intros Hp. unfold Path.relpath. apply String.eqb_neq in Hp. rewrite Hp.
  cbv zeta. destruct (_ ++ _)%list; eauto.
Qed.

Lemma relpath_self cwd p : p <> "" -> Path.relpath cwd p p = Some ".".
Proof.
  intros Hp. unfold Path.relpath. apply String.eqb_neq in Hp. rewrite Hp.
  cbv zeta. rewrite common_len_refl, Nat.sub_diag, skipn_all. reflexivity.
Qed.

Lemma split_char_nil c : Str.split (String c "") "" = [""].
Proof. reflexivity. Qed.

Lemma split_char_cons c a s :
  Str.split (String c "") (String a s)
  = if Ascii.eqb c a then "" :: Str.split (String c "") s
    else match Str.split (String c "") s with
         | seg :: rest => String a seg :: rest
         | [] => [String a ""]
         end.
Proof.
  unfold Str.split. cbn [Str.split_go Str.startswith String.length Nat.sub].
  destruct (Ascii.eqb c a); reflexivity.
Qed.

Lemma split_no_sep c s :
  Str.contains (String c "") s = false -> Str.split (String c "") s = [s].
Proof.
  induction s as [|a s IH]; intros H; [reflexivity|].
  rewrite contains_char_cons in H. apply orb_false_elim in H as [Ha Hs].
  rewrite split_char_cons, Ha, (IH Hs). reflexivity.
Qed.

Lemma split_app_sep c s t :
  Str.contains (String c "") s = false ->
  Str.split (String c "") (s +:+ String c t) = s :: Str.split (String c "") t.
Proof.
  induction s as [|a s IH]; intros H.
  - rewrite app_empty_l, split_char_cons, Ascii.eqb_refl. reflexivity.
  - rewrite contains_char_cons in H. apply orb_false_elim in H as [Ha Hs].
    rewrite app_String, split_char_cons, Ha, (IH Hs). reflexivity.
Qed.













Lemma before_first_sep c (s t : string) :
  Str.contains (String c "") s = false -> before_first c (s +:+ String c t) = s.
Proof.
  induction s as [|a s IH]; intros H.
  - rewrite app_empty_l. cbn. rewrite Ascii.eqb_refl. reflexivity.
  - rewrite contains_char_cons in H. apply orb_false_elim in H as [Ha Hs].
    rewrite app_String. cbn [before_first]. rewrite (Ascii.eqb_sym a c), Ha, (IH Hs).
    reflexivity.
Qed.

Lemma before_first_none c s :
  Str.contains (String c "") s = false -> before_first c s = s.
Proof.
  induction s as [|a s IH]; intros H; [reflexivity|].
  rewrite contains_char_cons in H. apply orb_false_elim in H as [Ha Hs].
  cbn [before_first]. rewrite (Ascii.eqb_sym a c), Ha, (IH Hs). reflexivity.
Qed.








(** ** [find_mounts] *)

Section SchedulerProperties.

Variable iter_order : gset string -> list string.
Hypothesis iter_order_perm : forall s, iter_order s ≡ₚ elements s.

Lemma iter_order_elem s x : x ∈ iter_order s <-> x ∈ s.
Proof. rewrite (iter_order_perm s). apply elem_of_elements. Qed.


Lemma scan_mounts_unique cwd p m ms storages rel :
  m ∈ ms ->
  (forall m', m' ∈ ms -> Str.startswith p m' = true -> m' = m) ->
  Str.startswith p m = true ->
  Path.relpath cwd p m = Some rel ->
  scan_mounts cwd p ms storages
  = Returned (storages ∪ {[ Str.remove_char "/" m +:+ "/" +:+ hd "" (Str.split "/" rel) ]}).
Proof.
  intros Hin Hfirst Hpm Hrel. induction ms as [|m' ms IH]; [inversion Hin|].
  cbn [scan_mounts]. destruct (Str.startswith p m') eqn:Hs.
  - rewrite (Hfirst m' (list_elem_of_here _ _) Hs), Hrel. reflexivity.
  - apply IH.
    + inversion Hin; subst; [congruence|assumption].
    + intros m'' Hm''. apply Hfirst. apply list_elem_of_further, Hm''.
Qed.

Lemma find_mounts_unique cwd p m (mounts : gset string) rel :
  m ∈ mounts ->
  (forall m', m' ∈ mounts -> Str.startswith p m' = true -> m' = m) ->
  Str.startswith p m = true ->
  Path.relpath cwd p m = Some rel ->
  find_mounts iter_order cwd (PathList [p]) (MountSet mounts)
  = Returned {[ Str.remove_char "/" m +:+ "/" +:+ hd "" (Str.split "/" rel) ]}.
Proof.
  intros Hin Hfirst Hpm Hrel. unfold find_mounts. cbn [ofold].
  rewrite (scan_mounts_unique cwd p m (iter_order mounts) ∅ rel); [| | |assumption..].
  - unfold mbind, outcome_bind. cbn [obind]. rewrite union_empty_l_L. reflexivity.
  - apply iter_order_elem, Hin.
  - intros m' Hm'. apply Hfirst. apply iter_order_elem, Hm'.
Qed.



Lemma scan_mounts_self cwd p ms storages :
  p <> "" -> p ∈ ms ->
  (forall m, m ∈ ms -> Str.startswith p m = true -> m = p) ->
  scan_mounts cwd p ms storages
  = Returned (storages ∪ {[ Str.remove_char "/" p +:+ "/" +:+ "." ]}).
Proof.
  intros Hp Hin Hfirst.
  apply (scan_mounts_unique cwd p p ms storages "." Hin Hfirst (startswith_refl p)
           (relpath_self cwd p Hp)).
Qed.

(** C10 as amended: for a non-empty path p that is a mount of the set, and
    that no other mount of the set is a prefix of, [find_mounts] returns
    exactly the token made of p without its separators, '/', and '.'. *)
Theorem C10_path_equal_to_mount (cwd p : string) (mounts : gset string) :
  p <> "" -> p ∈ mounts ->
  (forall m, m ∈ mounts -> Str.startswith p m = true -> m = p) ->
  find_mounts iter_order cwd (PathList [p]) (MountSet mounts)
  = Returned {[ Str.remove_char "/" p +:+ "/" +:+ "." ]}.
Proof.
  intros Hp Hin Hfirst. unfold find_mounts. cbn [ofold].
  rewrite (scan_mounts_self cwd p (iter_order mounts) ∅ Hp).
  - unfold mbind, outcome_bind. cbn [obind]. rewrite union_empty_l_L. reflexivity.
  - apply iter_order_elem, Hin.
  - intros m Hm. apply Hfirst. apply iter_order_elem, Hm.
Qed.

End SchedulerProperties.

Lemma trie_order_perm s : trie_order s ≡ₚ elements s.
Proof. reflexivity. Qed.

Lemma reverse_order_perm s : reverse_order s ≡ₚ elements s.
Proof. unfold reverse_order. symmetry. apply Permutation_rev. Qed.




(** C10, the claim as stated fails: with the mounts /g and /g/data, the
    path /g/data is equal to a mount, yet when /g is met first the token is
    g/data, not gdata/.; and for the empty path and the empty mount no set
    is returned, [relpath] raising ValueError. *)
Lemma C10_path_equal_to_mount_counterexample :
  "/g/data" ∈ ({["/g"; "/g/data"]} : gset string)
  /\ reverse_order {["/g"; "/g/data"]} = ["/g"; "/g/data"]
  /\ find_mounts reverse_order "/" (PathList ["/g/data"]) (MountSet {["/g"; "/g/data"]})
     = Returned {["g/data"]}
  /\ find_mounts reverse_order "/" (PathList ["/g/data"]) (MountSet {["/g"; "/g/data"]})
     <> Returned {[ Str.remove_char "/" "/g/data" +:+ "/" +:+ "." ]}
  /\ find_mounts trie_order "/" (PathList [""]) (MountSet {[""]}) = Raised ValueError.
Proof.
  split; [set_solver|].
  split; [vm_compute; reflexivity|].
  split; [vm_compute; reflexivity|].
  split; [|vm_compute; reflexivity].
  vm_compute. discriminate.
Qed.

Lemma C10_path_equal_to_mount_witness :
  find_mounts trie_order "/home/user" (PathList ["/g/data"])
    (MountSet {["/scratch"; "/g/data"]})
  = Returned {[ "gdata/." ]}.
Proof.
  apply (C10_path_equal_to_mount trie_order trie_order_perm "/home/user" "/g/data"
           {["/scratch"; "/g/data"]}).
  - discriminate.
  - set_solver.
  - intros m Hm Hs. apply elem_of_union in Hm as [Hm|Hm];
      apply elem_of_singleton in Hm; subst m; [discriminate Hs|reflexivity].
Defined.

(** ** [generate_command] *)

Lemma M_bind_returned {A B} (m : M A) (f : A -> M B) st b st' :
  (m ≫= f) st = (Returned b, st') ->
  exists a st1, m st = (Returned a, st1) /\ f a st1 = (Returned b, st').
Proof.
  unfold mbind, M_bind. destruct (m st) as [[a|e|c] st1]; intros H;
    [eauto | discriminate | discriminate].
Qed.

Lemma lift_returned {A} (o : outcome A) st a st' :
  lift o st = (Returned a, st') -> o = Returned a /\ st' = st.
Proof. unfold lift. intros H. inversion H. auto. Qed.

Lemma ofold_invariant {A B} (P : A -> Prop) (f : A -> B -> outcome A) l :
  (forall acc x acc', f acc x = Returned acc' -> P acc -> P acc') ->
  forall acc r, P acc -> ofold f acc l = Returned r -> P r.
Proof.
  intros Hf. induction l as [|x l IH]; intros acc r Hacc H; cbn [ofold] in H.
  - inversion H; subst; exact Hacc.
  - unfold mbind, outcome_bind in H. destruct (f acc x) as [acc'| |] eqn:Hx;
      cbn [obind] in H; try discriminate.
    apply (IH acc' r); [|exact H]. apply (Hf acc x acc' Hx Hacc).
Qed.

Lemma unpack2_mount item mount projects :
  Py.unpack2 item = Returned (mount, projects) -> mount <> "".
Proof.
  unfold Py.unpack2. destruct item as [|c1 [|c2 [|c3 s]]]; cbn; intros H;
    inversion H; discriminate.
Qed.

Lemma storage_step_mounts acc item acc' :
  storage_step acc item = Returned acc' -> "" ∉ acc.1 -> "" ∉ acc'.1.
Proof.
  destruct acc as [mounts storages]. unfold storage_step, mbind, outcome_bind.
  destruct (Py.unpack2 item) as [[mount projects]| |] eqn:Hu; cbn [obind];
    intros H; inversion H; subst; cbn [fst].
  intros Hm Hin. apply elem_of_union in Hin as [Hin|Hin]; [auto|].
  apply elem_of_singleton in Hin. symmetry in Hin.
  apply (unpack2_mount _ _ _ Hu Hin).
Qed.

Lemma default_mounts_nonempty : "" ∉ ({["/scratch"; "/g/data"]} : gset string).
Proof.
  intros H. apply elem_of_union in H as [H|H]; apply elem_of_singleton in H;
    discriminate H.
Qed.

Lemma M_bind_step {A B} (m : M A) (f : A -> M B) st a st1 :
  m st = (Returned a, st1) -> (m ≫= f) st = f a st1.
Proof. intros H. unfold mbind, M_bind. rewrite H. reflexivity. Qed.

Lemma environ_item_some key st v :
  environ st !! key = Some v -> environ_item key st = (Returned v, st).
Proof. intros H. unfold environ_item. rewrite H. reflexivity. Qed.


Section CommandProperties.

Variable iter_order : gset string -> list string.
Hypothesis iter_order_perm : forall s, iter_order s ≡ₚ elements s.

Lemma scan_mounts_returns cwd p ms storages :
  "" ∉ ms -> exists r, scan_mounts cwd p ms storages = Returned r.
Proof.
  induction ms as [|m ms IH]; intros Hms; cbn [scan_mounts]; [eauto|].
  destruct (Str.startswith p m) eqn:Hs.
  - destruct (relpath_some cwd p m) as [rel ->]; [|eauto].
    intros ->. apply startswith_empty in Hs. subst m. apply Hms. left.
  - apply IH. intros Hin. apply Hms. right. exact Hin.
Qed.

Lemma find_mounts_returns cwd paths mounts :
  "" ∉ mounts ->
  exists found, find_mounts iter_order cwd (PathList paths) (MountSet mounts)
                = Returned found.
Proof.
  intros Hm. unfold find_mounts. generalize (∅ : gset string).
  induction paths as [|p paths IH]; intros storages; cbn [ofold]; [eauto|].
  destruct (scan_mounts_returns cwd p (iter_order mounts) storages) as [r ->].
  - intros Hin. apply Hm. apply (iter_order_elem iter_order iter_order_perm), Hin.
  - apply IH.
Qed.

Lemma build_flags_mounts w pbs_config pbs_vars st pbs_flags mounts storages st' :
  build_flags iter_order w pbs_config pbs_vars st
  = (Returned (pbs_flags, mounts, storages), st') ->
  "" ∉ mounts.
Proof.
  intros H. unfold build_flags in H.
  apply M_bind_returned in H as (? & s1 & _ & H). cbv beta zeta in H.
  apply M_bind_returned in H as (env_project & s2 & _ & H). cbv beta zeta in H.
  apply M_bind_returned in H as (flags1 & s3 & _ & H). cbv beta zeta in H.
  apply M_bind_returned in H as (flags2 & s4 & _ & H). cbv beta zeta in H.
  apply M_bind_returned in H as (acc & s6 & Hloop & H).
  destruct acc as [mounts' storages'].
  apply lift_returned in Hloop as [Hloop _].
  inversion H; subst.
  unfold storage_loop, mbind, outcome_bind in Hloop.
  destruct (Py.iter (default (VStorage []) (pbs_config !! "storage")))
    as [items| |]; cbn [obind] in Hloop; try discriminate.
  exact (ofold_invariant (fun acc => "" ∉ acc.1) _ _ storage_step_mounts
           ({["/scratch"; "/g/data"]}, ∅) (mounts, storages)
           default_mounts_nonempty Hloop).
Qed.

Lemma build_flags_storage w pbs_config pbs_vars st pbs_flags mounts storages st' :
  build_flags iter_order w pbs_config pbs_vars st
  = (Returned (pbs_flags, mounts, storages), st') ->
  storage_loop (default (VStorage []) (pbs_config !! "storage"))
    {["/scratch"; "/g/data"]} ∅
  = Returned (mounts, storages)
  /\ exists pre,
       pbs_flags
       = (pre
          ++ (if String.eqb (Str.join "+" (iter_order storages)) "" then []
              else [VStr ("-l storage=" +:+ Str.join "+" (iter_order storages))])
          ++ (if Py.truthy (default VNone (pbs_config !! "qsub_flags"))
              then [default VNone (pbs_config !! "qsub_flags")] else []))%list.
Proof.
  intros H. unfold build_flags in H.
  apply M_bind_returned in H as (? & s1 & _ & H). cbv beta zeta in H.
  apply M_bind_returned in H as (env_project & s2 & _ & H). cbv beta zeta in H.
  apply M_bind_returned in H as (flags1 & s3 & _ & H). cbv beta zeta in H.
  apply M_bind_returned in H as (flags2 & s4 & _ & H). cbv beta zeta in H.
  apply M_bind_returned in H as (acc & s6 & Hloop & H).
  destruct acc as [mounts' storages'].
  apply lift_returned in Hloop as [Hloop _].
  inversion H; subst. split; [exact Hloop|].
  match goal with
  | |- context [(flags2 ++ [?v])%list] => exists (flags2 ++ [v])%list
  end.
  destruct (Py.truthy (default VNone (pbs_config !! "qsub_flags")));
    destruct (String.eqb (Str.join "+" (iter_order storages)) "");
    rewrite ?app_nil_r, <- ?app_assoc; reflexivity.
Qed.

(** C5: whatever the scan of the interpreter and script paths finds, the
    call behaves as the same sequence of steps without the scan.  The
    command returned is built from the flag list alone, and in that list
    the storage flag is made of the tokens that the loop over the
    configured storage produced, and is absent when there are none. *)
Theorem C5_discovered_mounts_have_no_effect
    (w : world) (pbs_script : string) (pbs_config : gmap string pyval)
    (pbs_vars : option (list (string * pyval))) (st : pstate) :
  generate_command iter_order w pbs_script pbs_config pbs_vars st
  = ('(pbs_flags, _, _) ← build_flags iter_order w pbs_config (default [] pbs_vars);
     pbs_script' ← resolve_script w pbs_script (default [] pbs_vars);
     _ ← envmod_load w;
     final_command w pbs_flags pbs_script') st
  /\ (forall pbs_flags mounts storages st1,
        build_flags iter_order w pbs_config (default [] pbs_vars) st
        = (Returned (pbs_flags, mounts, storages), st1) ->
        storage_loop (default (VStorage []) (pbs_config !! "storage"))
          {["/scratch"; "/g/data"]} ∅
        = Returned (mounts, storages)
        /\ exists pre,
             pbs_flags
             = (pre
                ++ (if String.eqb (Str.join "+" (iter_order storages)) "" then []
                    else [VStr ("-l storage=" +:+ Str.join "+" (iter_order storages))])
                ++ (if Py.truthy (default VNone (pbs_config !! "qsub_flags"))
                    then [default VNone (pbs_config !! "qsub_flags")] else []))%list).
Proof.
  split; [|intros pbs_flags mounts storages st1; apply build_flags_storage].
  unfold generate_command. cbv zeta. unfold mbind at 1 5, M_bind at 1 5.
  destruct (build_flags iter_order w pbs_config (default [] pbs_vars) st)
    as [[[[pbs_flags mounts] storages]|e|c] st1] eqn:Hb; try reflexivity.
  unfold mbind at 1 4, M_bind at 1 4.
  destruct (resolve_script w pbs_script (default [] pbs_vars) st1)
    as [[pbs_script'|e|c] st2]; try reflexivity.
  destruct (find_mounts_returns (getcwd w) [executable w; pbs_script'] mounts
              (build_flags_mounts _ _ _ _ _ _ _ _ Hb)) as [found Hfound].
  rewrite Hfound. reflexivity.
Qed.

Lemma flags_around_join (pre : list pyval) (a b c : pyval) (post : list pyval) :
  exists pre' post',
    ((((pre ++ [a]) ++ [b]) ++ [c]) ++ post)%list = (pre' ++ [a; b; c] ++ post')%list.
Proof. exists pre, post. rewrite <- !app_assoc. reflexivity. Qed.


End CommandProperties.

Lemma sample_world_init : pbs_env_init sample_world sample_state = (Returned tt, sample_state_init).
Proof. vm_compute. reflexivity. Qed.

Lemma C5_discovered_mounts_have_no_effect_witness :
  generate_command trie_order sample_world "payu-run" ∅ None sample_state
  = ('(pbs_flags, _, _) ← build_flags trie_order sample_world ∅ [];
     pbs_script' ← resolve_script sample_world "payu-run" [];
     _ ← envmod_load sample_world;
     final_command sample_world pbs_flags pbs_script') sample_state.
Proof.
  apply (C5_discovered_mounts_have_no_effect trie_order trie_order_perm
           sample_world "payu-run" ∅ None sample_state).
Defined.

(** The scan does find a token in [sample_world], whose interpreter lies
    under /g/data, and the command has no storage flag. *)
Example discovered_token_not_in_command :
  find_mounts trie_order (getcwd sample_world)
    (PathList [executable sample_world; "/usr/bin/payu-run"])
    (MountSet {["/scratch"; "/g/data"]})
  = Returned {["gdata/xy99"]}
  /\ (generate_command trie_order sample_world "payu-run" ∅ None sample_state).1
     = Returned ("qsub -q normal -P ab12 -N experiment_with -l wd -j n -v  -- "
                 +:+ "/g/data/xy99/bin/python /usr/bin/payu-run").
Proof. split; vm_compute; reflexivity. Qed.


(** ** The configured storage *)

Lemma storage_step_long_key acc (item : string) :
  length (Str.chars item) <> 2 -> storage_step acc item = Raised ValueError.
Proof.
  intros H. destruct acc as [mounts storages]. unfold storage_step, Py.unpack2.
  destruct (Str.chars item) as [|a [|b [|c l]]]; try reflexivity.
  cbn in H. congruence.
Qed.

(** C1, evaluated where the code departs from it: with the storage
    mapping from /g/data to the list of ab12, the loop over the mapping
    takes each key apart into two characters and raises ValueError on
    /g/data, so that no command is returned and no token g/data/ab12 is
    built; without a storage entry the command has no storage flag. *)
Theorem C1_storage_mapping_raises :
  storage_loop (VStorage [("/g/data", ["ab12"])]) {["/scratch"; "/g/data"]} ∅
  = Raised ValueError
  /\ (forall iter_order,
        (generate_command iter_order sample_world "payu-run"
           {["storage" := VStorage [("/g/data", ["ab12"])]]} None sample_state).1
        = Raised ValueError)
  /\ (generate_command trie_order sample_world "payu-run" ∅ None sample_state).1
     = Returned ("qsub -q normal -P ab12 -N experiment_with -l wd -j n -v  -- "
                 +:+ "/g/data/xy99/bin/python /usr/bin/payu-run").
Proof.
  split; [vm_compute; reflexivity|]. split.
  - intros iter_order. vm_compute. reflexivity.
  - vm_compute. reflexivity.
Qed.

(** With a key of two characters the loop does build a token: the first
    character, '/', the second character. *)
Example storage_two_character_key :
  (generate_command trie_order sample_world "payu-run"
     {["storage" := VStorage [("ab", ["ab12"])]]} None sample_state).1
  = Returned ("qsub -q normal -P ab12 -N experiment_with -l wd -j n -v  "
              +:+ "-l storage=a/b -- /g/data/xy99/bin/python /usr/bin/payu-run").
Proof. vm_compute. reflexivity. Qed.

(** * Further properties of the module *)

(** ** The retry wrapper and the status fetch *)

Lemma retry_never_raises {A} (body : (string -> proc_result) -> outcome A)
    (attempts : list attempt) (e : exn) :
  retry body attempts <> Some (Raised e).
Proof.
  induction attempts as [|a rest IH]; cbn [retry]; [discriminate|].
  destruct (body (run a)); try discriminate.
  destruct (max_delay <=? elapsed a)%Z; [discriminate|exact IH].
Qed.

Lemma retry_none_after_delay {A} (body : (string -> proc_result) -> outcome A)
    (attempts : list attempt) :
  retry body attempts = Some (Returned None) ->
  Exists (fun a => (max_delay <= elapsed a)%Z /\ exists e, body (run a) = Raised e)
         attempts.
Proof.
  induction attempts as [|a rest IH]; cbn [retry]; [discriminate|].
  destruct (body (run a)) as [r|e|c] eqn:Hb; try discriminate.
  destruct (max_delay <=? elapsed a)%Z eqn:Hd.
  - intros _. apply Exists_cons_hd. apply Z.leb_le in Hd. eauto.
  - intros H. apply Exists_cons_tl, IH, H.
Qed.

Lemma ofold_no_exit {A B} (f : A -> B -> outcome A) :
  (forall acc x c, f acc x <> Exited c) ->
  forall l acc c, ofold f acc l <> Exited c.
Proof.
  intros Hf l. induction l as [|x l IH]; intros acc c; cbn [ofold]; [discriminate|].
  unfold mbind, outcome_bind. destruct (f acc x) as [acc'|e|c'] eqn:Hx; cbn [obind].
  - apply IH.
  - discriminate.
  - exfalso. apply (Hf acc x c' Hx).
Qed.

Lemma entry_kept_no_exit ps us e c : entry_kept ps us e <> Exited c.
Proof.
  unfold entry_kept. destruct ps; [|discriminate].
  destruct (existsb _ _); [discriminate|]. destruct us; discriminate.
Qed.

Lemma status_step_no_exit filtered ps us status e c :
  status_step filtered ps us status e <> Exited c.
Proof.
  unfold status_step. destruct (String.eqb e ""); [discriminate|].
  unfold mbind, outcome_bind.
  destruct (if filtered then entry_kept ps us e else Returned true) as [[|]| |] eqn:Hk;
    cbn [obind]; try discriminate.
  - destruct (entry_attribs_outcome e) as [[[k v] ->]| ->]; cbn [obind]; [|discriminate].
    destruct (attribs_dict_outcome v) as [[d ->]| ->]; cbn [obind]; discriminate.
  - destruct filtered; [|discriminate]. exfalso. apply (entry_kept_no_exit _ _ _ _ Hk).
Qed.

Lemma qstat_attempt_no_exit env run qflag header ps us c :
  qstat_attempt env run qflag header ps us <> Exited c.
Proof.
  unfold qstat_attempt. destruct (env !! "PBS_EXEC"); [|discriminate].
  destruct (run _); [|discriminate].
  apply ofold_no_exit. intros acc x c'. apply status_step_no_exit.
Qed.

(** X1: the fetch never raises and never leaves through sys.exit; when it
    returns None, one of its attempts raised at or after the ten seconds. *)
Theorem get_qstat_info_never_raises
    (env : gmap string string) (attempts : list attempt) (qflag header : string)
    (projects users : option (list string)) :
  (forall e, get_qstat_info env attempts qflag header projects users <> Some (Raised e))
  /\ (forall c, get_qstat_info env attempts qflag header projects users <> Some (Exited c))
  /\ (get_qstat_info env attempts qflag header projects users = Some (Returned None) ->
      Exists (fun a => (max_delay <= elapsed a)%Z
                       /\ exists e, qstat_attempt env (run a) qflag header projects users
                                    = Raised e)
             attempts).
Proof.
  unfold get_qstat_info. split; [|split].
  - intros e. apply retry_never_raises.
  - intros c. induction attempts as [|a rest IH]; cbn [retry]; [discriminate|].
    destruct (qstat_attempt env (run a) qflag header projects users) as [r|e|c'] eqn:Hb;
      try discriminate.
    + destruct (max_delay <=? elapsed a)%Z; [discriminate|exact IH].
    + exfalso. apply (qstat_attempt_no_exit _ _ _ _ _ _ _ Hb).
  - apply retry_none_after_delay.
Qed.

Lemma retry_first_success {A} (body : (string -> proc_result) -> outcome A)
    (failed : list attempt) (a : attempt) (rest : list attempt) (r : A) :
  Forall (fun f => (exists e, body (run f) = Raised e)
                   /\ (elapsed f < max_delay)%Z) failed ->
  body (run a) = Returned r ->
  retry body (failed ++ a :: rest) = Some (Returned (Some r)).
Proof.
  intros Hf Ha. induction Hf as [|f failed [[e He] Ht] Hf IH]; cbn [retry app].
  - rewrite Ha. reflexivity.
  - rewrite He. apply Z.leb_gt in Ht. rewrite Ht. exact IH.
Qed.

(** X2: attempts that raise before the ten seconds have passed are
    retried, and the mapping of the first attempt that parses is returned,
    whatever later attempts would do. *)
Theorem get_qstat_info_first_success
    (env : gmap string string) (failed : list attempt) (a : attempt)
    (rest : list attempt) (qflag header : string)
    (projects users : option (list string)) (status : qstatus) :
  Forall (fun f => (exists e, qstat_attempt env (run f) qflag header projects users
                              = Raised e)
                   /\ (elapsed f < max_delay)%Z) failed ->
  qstat_attempt env (run a) qflag header projects users = Returned status ->
  get_qstat_info env (failed ++ a :: rest) qflag header projects users
  = Some (Returned (Some status)).
Proof. intros Hf Ha. unfold get_qstat_info. apply retry_first_success; assumption. Qed.

Lemma get_qstat_info_first_success_witness :
  get_qstat_info pbs_environ
    ([always_failing CalledProcessError 2000000000;
      always_output stray_line_text 5000000000]
     ++ always_output sample_status_text 7000000000
     :: [always_failing OSError 8000000000])
    "-f" "Job Id" None None
  = Some (Returned (Some
      {[ "123" := {[ "project" := "ab12"; "Job_Owner" := "alice" ]} ]})).
Proof.
  apply (get_qstat_info_first_success pbs_environ
           [always_failing CalledProcessError 2000000000;
            always_output stray_line_text 5000000000]
           (always_output sample_status_text 7000000000)
           [always_failing OSError 8000000000] "-f" "Job Id" None None).
  - repeat constructor; first [eexists; vm_compute; reflexivity | reflexivity].
  - vm_compute. reflexivity.
Defined.

Lemma get_qstat_info_never_raises_witness :
  Exists (fun a => (max_delay <= elapsed a)%Z
                   /\ exists e, qstat_attempt pbs_environ (run a) "-f" "Job Id" None None
                                = Raised e)
    [always_failing CalledProcessError 4000000000;
     always_output stray_line_text 10000000000].
Proof.
  apply (get_qstat_info_never_raises pbs_environ
           [always_failing CalledProcessError 4000000000;
            always_output stray_line_text 10000000000] "-f" "Job Id" None None).
  vm_compute. reflexivity.
Defined.

Lemma split_no_occurrence sep s :
  Str.contains sep s = false -> Str.split sep s = [s].
Proof.
  unfold Str.split. induction s as [|a s IH]; intros H; [reflexivity|].
  cbn [Str.contains] in H. apply orb_false_elim in H as [H1 H2].
  cbn [Str.split_go]. rewrite H1, (IH H2). reflexivity.
Qed.

(** X3: an output without any text yields the empty mapping, not None,
    whatever the filters are, also filters that would raise on a block. *)
Theorem get_qstat_info_empty_output
    (env : gmap string string) (pbs_exec : string) (a : attempt)
    (rest : list attempt) (qflag header : string)
    (projects users : option (list string)) :
  env !! "PBS_EXEC" = Some pbs_exec ->
  (forall cmd, run a cmd = Output "") ->
  get_qstat_info env (a :: rest) qflag header projects users = Some (Returned (Some ∅)).
Proof.
  intros Henv Hrun. unfold get_qstat_info, retry, qstat_attempt.
  rewrite Henv, Hrun. reflexivity.
Qed.

Lemma get_qstat_info_empty_output_witness :
  get_qstat_info pbs_environ [always_output "" 1000000000] "-f" "Job Id"
    None (Some ["alice"])
  = Some (Returned (Some ∅)).
Proof.
  apply (get_qstat_info_empty_output pbs_environ "/opt/pbs"
           (always_output "" 1000000000) [] "-f" "Job Id" None (Some ["alice"]));
    [reflexivity|intros cmd; reflexivity].
Defined.

Lemma entry_attribs_no_newline e :
  Str.contains newline e = false -> entry_attribs e = Raised ValueError.
Proof.
  intros H. unfold entry_attribs, Str.split1. rewrite (partition_none _ _ H). reflexivity.
Qed.

(** X4: a block that is not empty and has no line end, such as a header
    with nothing after the job name, cannot be taken apart into key and
    body: the unfiltered attempt raises ValueError. *)
Theorem qstat_attempt_block_without_newline
    (env : gmap string string) (pbs_exec qflag header output e : string)
    (run : string -> proc_result) :
  env !! "PBS_EXEC" = Some pbs_exec ->
  (forall cmd, run cmd = Output output) ->
  e ∈ Str.split (header +:+ ": ") output ->
  e <> "" ->
  Str.contains newline e = false ->
  qstat_attempt env run qflag header None None = Raised ValueError.
Proof.
  intros Henv Hrun He Hne Hnl. unfold qstat_attempt. rewrite Henv, Hrun.
  cbn [list_truthy orb]. apply (ofold_raises _ _ _ _ He).
  - intros acc y. apply status_step_unfiltered_outcome.
  - intros acc. unfold status_step. apply String.eqb_neq in Hne. rewrite Hne.
    unfold mbind, outcome_bind. cbn [obind].
    rewrite (entry_attribs_no_newline _ Hnl). reflexivity.
Qed.

Lemma qstat_attempt_block_without_newline_witness :
  qstat_attempt pbs_environ (fun _ => Output "Job Id: 123.r-man2") "-f" "Job Id"
    None None
  = Raised ValueError.
Proof.
  apply (qstat_attempt_block_without_newline pbs_environ "/opt/pbs" "-f" "Job Id"
           "Job Id: 123.r-man2" "123.r-man2" (fun _ => Output "Job Id: 123.r-man2")).
  - reflexivity.
  - intros cmd. reflexivity.
  - vm_compute. apply list_elem_of_further, list_elem_of_here.
  - discriminate.
  - reflexivity.
Defined.

Lemma before_first_no_char c k :
  Str.contains (String c "") (before_first c k) = false.
Proof.
  induction k as [|a k IH]; [reflexivity|]. cbn [before_first].
  destruct (Ascii.eqb a c) eqn:Ha; [reflexivity|].
  rewrite contains_char_cons, (Ascii.eqb_sym c a), Ha, IH. reflexivity.
Qed.

Lemma entry_attribs_key e k v :
  entry_attribs e = Returned (k, v) -> Str.contains "." k = false.
Proof.
  unfold entry_attribs. destruct (Str.split1 newline e) as [|k0 [|v0 [|? ?]]];
    try discriminate.
  intros H. inversion H; subst. rewrite split_char_head. apply before_first_no_char.
Qed.

Lemma status_step_keys filtered ps us status e status' :
  status_step filtered ps us status e = Returned status' ->
  (forall k, is_Some (status !! k) -> Str.contains "." k = false) ->
  forall k, is_Some (status' !! k) -> Str.contains "." k = false.
Proof.
  unfold status_step. destruct (String.eqb e ""); [intros H; inversion H; auto|].
  unfold mbind, outcome_bind.
  destruct (if filtered then entry_kept ps us e else Returned true) as [[|]| |];
    cbn [obind]; try discriminate; [|intros H; inversion H; auto].
  destruct (entry_attribs e) as [[k0 v]| |] eqn:Hkv; cbn [obind]; try discriminate.
  destruct (attribs_dict v) as [d| |]; cbn [obind]; try discriminate.
  intros H Hold k Hk. inversion H; subst.
  destruct (decide (k0 = k)) as [->|Hne].
  - apply (entry_attribs_key _ _ _ Hkv).
  - rewrite lookup_insert_ne in Hk by assumption. apply Hold, Hk.
Qed.

(** X5: no key of a mapping that an attempt returns contains a '.': the
    queue-server suffix of every job name is cut off. *)
Theorem qstat_attempt_keys_without_dot
    (env : gmap string string) (run : string -> proc_result) (qflag header : string)
    (projects users : option (list string)) (status : qstatus) (k : string) :
  qstat_attempt env run qflag header projects users = Returned status ->
  is_Some (status !! k) ->
  Str.contains "." k = false.
Proof.
  unfold qstat_attempt. destruct (env !! "PBS_EXEC"); [|discriminate].
  destruct (run _); [|discriminate].
  intros H. revert k.
  refine (ofold_invariant
            (fun st : qstatus => forall k, is_Some (st !! k) -> Str.contains "." k = false)
            _ _ (status_step_keys (list_truthy projects || list_truthy users)
                   projects users) ∅ status _ H).
  intros k [x Hx]. rewrite lookup_empty in Hx. discriminate.
Qed.

Lemma qstat_attempt_keys_without_dot_witness :
  Str.contains "." "123" = false.
Proof.
  apply (qstat_attempt_keys_without_dot pbs_environ (fun _ => Output sample_status_text)
           "-f" "Job Id" None None
           {[ "123" := {[ "project" := "ab12"; "Job_Owner" := "alice" ]} ]} "123").
  - vm_compute. reflexivity.
  - rewrite lookup_singleton_eq. eexists. reflexivity.
Defined.

(** ** Attributes of a block *)

(** X6: of two attribute lines with the same key the later one wins: a
    line key=value added after the lines of a block stores the stripped
    value under the stripped key, over whatever was there. *)
Theorem attribs_dict_last_wins (v : list string) (d : gmap string string)
    (kk vv : string) :
  attribs_dict v = Returned d ->
  Str.contains "=" kk = false ->
  attribs_dict (v ++ [kk +:+ "=" +:+ vv])%list
  = Returned (<[Str.strip kk := Str.strip vv]> d)
  /\ <[Str.strip kk := Str.strip vv]> d !! Str.strip kk = Some (Str.strip vv).
Proof.
  intros Hv Hk. split; [|apply lookup_insert_eq].
  rewrite attribs_dict_fold, ofold_app. rewrite attribs_dict_fold in Hv.
  rewrite Hv. cbn [obind ofold]. unfold attribs_step.
  rewrite (att_pair_split _ _ Hk).
  destruct (String.eqb (kk +:+ "=" +:+ vv) "") eqn:He; [|reflexivity].
  apply String.eqb_eq in He. destruct kk; discriminate He.
Qed.

Lemma attribs_dict_last_wins_witness :
  attribs_dict (["    queue = normal"; "    queue = express"]
                ++ ["    queue " +:+ "=" +:+ " copyq"])%list
  = Returned (<[Str.strip "    queue " := Str.strip " copyq"]> {[ "queue" := "express" ]})
  /\ <[Str.strip "    queue " := Str.strip " copyq"]>
       ({[ "queue" := "express" ]} : gmap string string) !! Str.strip "    queue "
     = Some (Str.strip " copyq").
Proof.
  apply (attribs_dict_last_wins ["    queue = normal"; "    queue = express"]
           {[ "queue" := "express" ]} "    queue " " copyq");
    vm_compute; reflexivity.
Defined.

Lemma lstrip_starts_unspaced s : starts_unspaced (Str.lstrip s).
Proof.
  induction s as [|c s IH]; [exact I|]. cbn [Str.lstrip].
  destruct (Str.is_space c) eqn:Hc; [exact IH|exact Hc].
Qed.

Lemma lstrip_unspaced s : starts_unspaced s -> Str.lstrip s = s.
Proof. destruct s as [|c s]; intros H; [reflexivity|]. cbn in *. rewrite H. reflexivity. Qed.

Lemma rstrip_cons c s :
  Str.rstrip (String c s)
  = match Str.rstrip s with
    | EmptyString => if Str.is_space c then EmptyString else String c EmptyString
    | r => String c r
    end.
Proof. reflexivity. Qed.

Lemma rstrip_starts_unspaced s : starts_unspaced s -> starts_unspaced (Str.rstrip s).
Proof.
  destruct s as [|c s]; intros H; [exact I|]. rewrite rstrip_cons.
  cbn in H. destruct (Str.rstrip s); [rewrite H|]; exact H.
Qed.

Lemma rstrip_idempotent s : Str.rstrip (Str.rstrip s) = Str.rstrip s.
Proof.
  induction s as [|c s IH]; [reflexivity|]. rewrite rstrip_cons.
  destruct (Str.rstrip s) as [|b r] eqn:Hr.
  - destruct (Str.is_space c) eqn:Hc; [reflexivity|].
    rewrite rstrip_cons. cbn [Str.rstrip]. rewrite Hc. reflexivity.
  - rewrite rstrip_cons, IH. reflexivity.
Qed.

Lemma strip_idempotent s : Str.strip (Str.strip s) = Str.strip s.
Proof.
  unfold Str.strip.
  rewrite (lstrip_unspaced (Str.rstrip (Str.lstrip s))).
  - apply rstrip_idempotent.
  - apply rstrip_starts_unspaced, lstrip_starts_unspaced.
Qed.

Lemma attribs_step_stripped d att d' :
  attribs_step d att = Returned d' -> stripped_map d -> stripped_map d'.
Proof.
  unfold attribs_step, att_pair, Str.split1.
  destruct (String.eqb att ""); [intros H; inversion H; auto|].
  destruct (Str.partition_go "=" att) as [[a b]|]; cbn; [|discriminate].
  intros H Hd k v Hkv. inversion H; subst.
  destruct (decide (Str.strip a = k)) as [<-|Hne].
  - rewrite lookup_insert_eq in Hkv. inversion Hkv; subst.
    split; apply strip_idempotent.
  - rewrite lookup_insert_ne in Hkv by assumption. apply (Hd _ _ Hkv).
Qed.

(** X7: in the attributes built for a block, no key and no value has
    whitespace at its start or at its end: stripping them again changes
    nothing. *)
Theorem attribs_dict_stripped (lines : list string) (d : gmap string string)
    (k v : string) :
  attribs_dict lines = Returned d ->
  d !! k = Some v ->
  Str.strip k = k /\ Str.strip v = v.
Proof.
  intros H. revert k v. change (stripped_map d).
  refine (ofold_invariant stripped_map _ _ attribs_step_stripped ∅ d _ H).
  intros k v Hkv. rewrite lookup_empty in Hkv. discriminate.
Qed.

Lemma attribs_dict_stripped_witness :
  Str.strip "Job_Owner" = "Job_Owner" /\ Str.strip "alice@host" = "alice@host".
Proof.
  apply (attribs_dict_stripped ["    Job_Owner  =  alice@host  "]
           {[ "Job_Owner" := "alice@host" ]} "Job_Owner" "alice@host").
  - vm_compute. reflexivity.
  - apply lookup_singleton_eq.
Defined.

(** ** The filters *)

Lemma startswith_app_l e a b :
  Str.startswith e (a +:+ b) = true -> Str.startswith e a = true.
Proof.
  revert e. induction a as [|x a IH]; intros e H; [reflexivity|].
  rewrite app_String in H. destruct e as [|y e]; [discriminate|].
  cbn [Str.startswith] in *. destruct (Ascii.eqb x y); [apply IH, H|discriminate].
Qed.

Lemma contains_app_l e a b :
  Str.contains (a +:+ b) e = true -> Str.contains a e = true.
Proof.
  induction e as [|y e IH]; cbn [Str.contains]; intros H.
  - apply orb_true_iff in H as [H|H]; [|discriminate].
    rewrite (startswith_app_l _ _ _ H). reflexivity.
  - apply orb_true_iff in H as [H|H].
    + rewrite (startswith_app_l _ _ _ H). reflexivity.
    + rewrite (IH H). apply orb_true_r.
Qed.

(** X8: the project filter is a test for a piece of text, not for a whole
    line: a block whose project code merely begins with a filtered code p
    is retained as well, whether or not a users filter is given. *)
Theorem entry_kept_project_prefix
    (ps : list string) (us : option (list string)) (p more e : string) :
  p ∈ ps ->
  Str.contains ("project = " +:+ p +:+ more) e = true ->
  entry_kept (Some ps) us e = Returned true.
Proof.
  intros Hin He. unfold entry_kept.
  assert (Hex : existsb (fun p0 => Str.contains ("project = " +:+ p0) e) ps = true).
  { apply existsb_exists. exists p. split; [apply list_elem_of_In, Hin|].
    apply (contains_app_l e ("project = " +:+ p) more).
    rewrite app_str_assoc. exact He. }
  rewrite Hex. reflexivity.
Qed.

Lemma entry_kept_project_prefix_witness :
  entry_kept (Some ["xy99"]) None ("2.x" +:+ newline +:+ "    project = xy999" +:+ newline)
  = Returned true.
Proof.
  apply (entry_kept_project_prefix ["xy99"] None "xy99" "9"
           ("2.x" +:+ newline +:+ "    project = xy999" +:+ newline)).
  - apply list_elem_of_here.
  - reflexivity.
Defined.

(** ** [get_job_id] and [get_job_info] *)

Lemma startswith_before_first c s : Str.startswith s (before_first c s) = true.
Proof.
  induction s as [|a s IH]; [reflexivity|]. cbn [before_first].
  destruct (Ascii.eqb a c); [reflexivity|].
  cbn [Str.startswith]. rewrite Ascii.eqb_refl. exact IH.
Qed.

(** X9: the short job id has no '.', is a prefix of the full id, and is
    the full id when that has no '.'; without PBS_JOBID both are empty. *)
Theorem get_job_id_short (env : gmap string string) :
  Str.contains "." (get_job_id env true) = false
  /\ Str.startswith (get_job_id env false) (get_job_id env true) = true
  /\ (Str.contains "." (get_job_id env false) = false ->
      get_job_id env true = get_job_id env false)
  /\ (env !! "PBS_JOBID" = None ->
      get_job_id env true = "" /\ get_job_id env false = "").
Proof.
  unfold get_job_id. cbv zeta. rewrite split_char_head.
  split; [apply before_first_no_char|].
  split; [apply startswith_before_first|].
  split; [apply before_first_none|].
  intros ->. split; reflexivity.
Qed.

Lemma get_job_id_short_witness :
  get_job_id {["PBS_JOBID" := "4242"]} true = get_job_id {["PBS_JOBID" := "4242"]} false
  /\ get_job_id pbs_environ true = "" /\ get_job_id pbs_environ false = "".
Proof.
  split.
  - apply (get_job_id_short {["PBS_JOBID" := "4242"]}). reflexivity.
  - apply (get_job_id_short pbs_environ). reflexivity.
Defined.

(** X10: without a job id [get_job_info] returns None and asks nothing of
    the scheduler, so that no attempt is needed; with a job id it returns
    None when every attempt fails until the ten seconds have passed. *)
Theorem get_job_info_none (env : gmap string string) (attempts : list attempt) :
  (get_job_id env true = "" -> get_job_info env attempts = Some (Returned None))
  /\ (get_job_id env true <> "" ->
      Forall (fun a => forall cmd, exists e, run a cmd = Failed e) attempts ->
      Exists (fun a => (max_delay <= elapsed a)%Z) attempts ->
      get_job_info env attempts = Some (Returned None)).
Proof.
  unfold get_job_info. cbv zeta. split.
  - intros ->. reflexivity.
  - intros Hne Hall Hex. apply String.eqb_neq in Hne. rewrite Hne.
    unfold get_qstat_info.
    rewrite (retry_exhausted _ attempts); [reflexivity| |exact Hex].
    eapply Forall_impl; [exact Hall|]. intros a Ha. cbn beta.
    apply qstat_attempt_failed, Ha.
Qed.

Lemma get_job_info_none_witness :
  get_job_info pbs_environ [] = Some (Returned None)
  /\ get_job_info (<["PBS_JOBID" := "123.r-man2"]> pbs_environ)
       [always_failing CalledProcessError 10000000000]
     = Some (Returned None).
Proof.
  split.
  - destruct (get_job_info_none pbs_environ []) as [Hnone _].
    apply Hnone. reflexivity.
  - destruct (get_job_info_none (<["PBS_JOBID" := "123.r-man2"]> pbs_environ)
                [always_failing CalledProcessError 10000000000]) as [_ Hfail].
    apply Hfail.
    + discriminate.
    + repeat constructor. intros cmd. eexists. reflexivity.
    + apply Exists_cons_hd. vm_compute. discriminate.
Defined.

Lemma contains_char_app c (a b : string) :
  Str.contains (String c "") (a +:+ b)
  = (Str.contains (String c "") a || Str.contains (String c "") b)%bool.
Proof.
  induction a as [|x a IH].
  - rewrite app_empty_l. reflexivity.
  - rewrite app_String, !contains_char_cons, IH, orb_assoc. reflexivity.
Qed.

(** X11: the header that [get_job_info] passes, "Job Id:", makes the
    separator "Job Id:: ", which does not occur in the output, so the
    whole output is one block whose key is "Job Id: " and the short name
    of its first line.  When that is the short id of this job the
    attributes are returned with Job_ID added; for another job the
    indexing raises KeyError. *)
Theorem get_job_info_record
    (env : gmap string string) (pbs_exec j srv j' tail body : string)
    (a : attempt) (rest : list attempt) (d : gmap string string) :
  env !! "PBS_JOBID" = Some (j +:+ "." +:+ srv) ->
  j <> "" -> Str.contains "." j = false -> Str.contains "." j' = false ->
  env !! "PBS_EXEC" = Some pbs_exec ->
  (forall cmd,
     run a cmd = Output (("Job Id: " +:+ j' +:+ "." +:+ tail) +:+ newline +:+ body)) ->
  Str.contains newline ("Job Id: " +:+ j' +:+ "." +:+ tail) = false ->
  Str.contains "Job Id:: "
    (("Job Id: " +:+ j' +:+ "." +:+ tail) +:+ newline +:+ body) = false ->
  attribs_dict (Str.split newline (Str.replace newline_tab "" body)) = Returned d ->
  get_job_info env (a :: rest)
  = Some (if decide (j' = j) then Returned (Some (<["Job_ID" := j]> d))
          else Raised KeyError).
Proof.
  intros Hid Hj Hdot Hdot' Henv Hrun Hnl Hsep Hd.
  assert (Hshort : get_job_id env true = j).
  { unfold get_job_id. rewrite Hid. cbn [default]. rewrite split_char_head.
    apply before_first_sep, Hdot. }
  unfold get_job_info. cbv zeta. rewrite Hshort.
  apply String.eqb_neq in Hj as Hj'. rewrite Hj'.
  unfold get_qstat_info, retry, qstat_attempt. rewrite Henv, Hrun.
  change ("Job Id:" +:+ ": ") with "Job Id:: ".
  rewrite (split_no_occurrence _ _ Hsep). cbn [list_truthy orb ofold].
  unfold status_step.
  assert (Hne : String.eqb
                  (("Job Id: " +:+ j' +:+ "." +:+ tail) +:+ newline +:+ body) "" = false)
    by reflexivity.
  rewrite Hne. unfold mbind at 2 3, outcome_bind at 2 3. cbn [obind].
  rewrite (entry_attribs_lines _ _ Hnl). cbn [obind]. rewrite Hd. cbn [obind].
  assert (Hkey : before_first "." ("Job Id: " +:+ j' +:+ "." +:+ tail) = "Job Id: " +:+ j').
  { rewrite <- (app_str_assoc "Job Id: " j' ("." +:+ tail)).
    apply before_first_sep. rewrite contains_char_app, Hdot'. reflexivity. }
  rewrite Hkey. unfold mbind, outcome_bind. cbn [obind].
  destruct (decide (j' = j)) as [->|Hne'].
  - rewrite lookup_insert_eq. reflexivity.
  - rewrite lookup_insert_ne, lookup_empty; [reflexivity|].
    intros Heq. apply Hne'. clear -Heq.
    rewrite !app_String, !app_empty_l in Heq. congruence.
Qed.

Lemma get_job_info_record_witness :
  get_job_info (<["PBS_JOBID" := "123.r-man2"]> pbs_environ)
    [always_output job_record_text 1000000000]
  = Some (Returned (Some {[ "Job_ID" := "123"; "project" := "ab12" ]}))
  /\ get_job_info (<["PBS_JOBID" := "77.r-man2"]> pbs_environ)
       [always_output job_record_text 1000000000]
     = Some (Raised KeyError).
Proof.
  split.
  - apply (get_job_info_record (<["PBS_JOBID" := "123.r-man2"]> pbs_environ)
             "/opt/pbs" "123" "r-man2" "123" "r-man2"
             ("    project = ab12" +:+ newline)
             (always_output job_record_text 1000000000) []
             {[ "project" := "ab12" ]});
      first [reflexivity | discriminate | intros cmd; reflexivity].
  - apply (get_job_info_record (<["PBS_JOBID" := "77.r-man2"]> pbs_environ)
             "/opt/pbs" "77" "r-man2" "123" "r-man2"
             ("    project = ab12" +:+ newline)
             (always_output job_record_text 1000000000) []
             {[ "project" := "ab12" ]});
      first [reflexivity | discriminate | intros cmd; reflexivity].
Defined.

(** ** [pbs_env_init] *)

(** X12: when the configuration file cannot be opened, [pbs_env_init]
    prints the path it tried and leaves with exit status 1, having set
    PBS_CONF_FILE and nothing else. *)
Theorem pbs_env_init_missing_file (w : world) (st : pstate) :
  read_lines w (pbs_conf_fpath w) = None ->
  pbs_env_init w st
  = (Exited 1,
     {| environ := <["PBS_CONF_FILE" := pbs_conf_fpath w]> (environ st);
        trace := trace st
                 ++ [EvSetEnv "PBS_CONF_FILE" (pbs_conf_fpath w);
                     EvOpen (pbs_conf_fpath w);
                     EvPrint ("Unable to find PBS_CONF_FILE ... " +:+ pbs_conf_fpath w)]
     |}).
Proof.
  intros Hread. rewrite pbs_env_init_steps, Hread.
  unfold unable_to_find, conf_state. cbn [environ trace].
  rewrite <- app_assoc. reflexivity.
Qed.

Lemma pbs_env_init_missing_file_witness :
  (pbs_env_init no_conf_world sample_state).1 = Exited 1.
Proof.
  rewrite (pbs_env_init_missing_file no_conf_world sample_state); reflexivity.
Defined.








Lemma split_char_length c s :
  length (Str.split (String c "") s) = S (count_char c s).
Proof.
  induction s as [|a s IH]; [reflexivity|].
  rewrite split_char_cons. cbn [count_char].
  destruct (Ascii.eqb c a); cbn [length Nat.add]; [rewrite IH; reflexivity|].
  destruct (Str.split (String c "") s); cbn [length] in *; [discriminate|exact IH].
Qed.

Lemma rstrip_all_space ws : all_space ws = true -> Str.rstrip ws = "".
Proof.
  induction ws as [|c ws IH]; [reflexivity|]. cbn [all_space].
  intros H. apply andb_prop in H as [Hc Hws].
  rewrite rstrip_cons, (IH Hws), Hc. reflexivity.
Qed.

Lemma rstrip_app_space s ws :
  all_space ws = true -> Str.rstrip (s +:+ ws) = Str.rstrip s.
Proof.
  intros Hws. induction s as [|c s IH].
  - rewrite app_empty_l. apply rstrip_all_space, Hws.
  - rewrite app_String, !rstrip_cons, IH. reflexivity.
Qed.

(** X14: a line of the configuration file with no '=' or with more than
    one changes nothing; a line KEY=VALUE with a line end, where KEY is
    not empty and neither part has a null character, sets KEY to VALUE
    without the whitespace and the line end that follow it. *)
Theorem pbs_conf_line_effect (line key value ws : string) (st : pstate) :
  (count_char "=" line <> 1 -> pbs_conf_line line st = (Returned tt, st))
  /\ (key <> "" -> Str.contains "=" key = false -> Str.contains "=" value = false ->
      Str.contains "=" ws = false -> all_space ws = true ->
      has_nul key = false -> has_nul (Str.rstrip value) = false ->
      pbs_conf_line (key +:+ "=" +:+ value +:+ ws) st
      = (Returned tt,
         {| environ := <[key := Str.rstrip value]> (environ st);
            trace := trace st ++ [EvSetEnv key (Str.rstrip value)] |})).
Proof.
  split.
  - intros Hcount. unfold pbs_conf_line, except_value_error.
    pose proof (split_char_length "=" line) as Hlen.
    destruct (Str.split "=" line) as [|a [|b [|c l]]]; try reflexivity.
    cbn [length] in Hlen. congruence.
  - intros Hkey Hk Hv Hws Hsp Hnk Hnv. unfold pbs_conf_line, except_value_error.
    rewrite app_String, app_empty_l, (split_app_sep _ _ _ Hk).
    rewrite split_no_sep by (rewrite contains_char_app, Hv, Hws; reflexivity).
    unfold environ_set. rewrite (rstrip_app_space _ _ Hsp).
    apply String.eqb_neq in Hkey. rewrite Hnk, Hnv, Hk. cbn [orb].
    rewrite Hkey. reflexivity.
Qed.

Lemma pbs_conf_line_effect_witness :
  pbs_conf_line "# no assignment here" sample_state = (Returned tt, sample_state)
  /\ pbs_conf_line ("PBS_SERVER" +:+ "=" +:+ "r-man2" +:+ (" " +:+ newline)) sample_state
     = (Returned tt,
        {| environ := <["PBS_SERVER" := Str.rstrip "r-man2"]> (environ sample_state);
           trace := trace sample_state ++ [EvSetEnv "PBS_SERVER" (Str.rstrip "r-man2")] |}).
Proof.
  split.
  - apply (pbs_conf_line_effect "# no assignment here" "" "" "" sample_state).
    discriminate.
  - apply (pbs_conf_line_effect "" "PBS_SERVER" "r-man2" (" " +:+ newline) sample_state);
      first [discriminate | reflexivity].
Defined.

Lemma pbs_conf_line_frame line st k :
  before_first "=" line <> k ->
  environ (pbs_conf_line line st).2 !! k = environ st !! k.
Proof.
  intros Hk. unfold pbs_conf_line, except_value_error.
  pose proof (split_char_head "=" line) as Hhd.
  destruct (Str.split "=" line) as [|key [|value [|? ?]]]; try reflexivity.
  cbn [hd] in Hhd. subst key. unfold environ_set.
  destruct (_ || _ || _)%bool; cbn; [reflexivity|].
  destruct (String.eqb (before_first "=" line) ""); cbn; [reflexivity|].
  apply lookup_insert_ne, Hk.
Qed.

Lemma for_each_conf_frame lines st k :
  Forall (fun line => before_first "=" line <> k) lines ->
  environ (for_each lines pbs_conf_line st).2 !! k = environ st !! k.
Proof.
  intros Hall. revert st. induction Hall as [|line lines Hline Hall IH]; intros st;
    [reflexivity|].
  cbn [for_each]. unfold mbind, M_bind.
  pose proof (pbs_conf_line_frame line st k Hline) as Hf.
  destruct (pbs_conf_line line st) as [[[]|e|c] st1]; cbn [fst snd] in *;
    [rewrite IH|..]; exact Hf.
Qed.

(** X15: [pbs_env_init] leaves a variable as it was, unless it is
    PBS_CONF_FILE or some line of the file has its name before the first
    '='. *)
Theorem pbs_env_init_frame (w : world) (st : pstate) (k : string) :
  k <> "PBS_CONF_FILE" ->
  (forall lines, read_lines w (pbs_conf_fpath w) = Some lines ->
     Forall (fun line => before_first "=" line <> k) lines) ->
  environ (pbs_env_init w st).2 !! k = environ st !! k.
Proof.
  intros Hk Hlines. rewrite pbs_env_init_steps.
  assert (Hconf : environ (conf_state w st) !! k = environ st !! k)
    by (apply lookup_insert_ne; congruence).
  destruct (read_lines w (pbs_conf_fpath w)) as [lines|] eqn:Hread; [|exact Hconf].
  pose proof (for_each_conf_frame lines (conf_state w st) k (Hlines lines eq_refl))
    as Hf.
  rewrite <- Hconf, <- Hf.
  destruct (for_each lines pbs_conf_line (conf_state w st)) as [[[]|[]|c] st'];
    reflexivity.
Qed.

Lemma pbs_env_init_frame_witness :
  environ (pbs_env_init sample_world sample_state).2 !! "PROJECT"
  = environ sample_state !! "PROJECT".
Proof.
  apply (pbs_env_init_frame sample_world sample_state "PROJECT").
  - discriminate.
  - intros lines Hread. vm_compute in Hread. inversion Hread; subst.
    repeat constructor; discriminate.
Defined.

(** ** [find_mounts] *)

Lemma remove_char_no_char c s :
  Str.contains (String c "") (Str.remove_char c s) = false.
Proof.
  induction s as [|a s IH]; [reflexivity|]. cbn [Str.remove_char].
  destruct (Ascii.eqb a c) eqn:Ha; [exact IH|].
  rewrite contains_char_cons, (Ascii.eqb_sym c a), Ha, IH. reflexivity.
Qed.

Lemma scan_mounts_none cwd p ms storages :
  Forall (fun m => Str.startswith p m = false) ms ->
  scan_mounts cwd p ms storages = Returned storages.
Proof.
  induction 1 as [|m ms Hm Hms IH]; cbn [scan_mounts]; [reflexivity|].
  rewrite Hm. exact IH.
Qed.

Lemma scan_mounts_result cwd p ms storages r (mounts : gset string) :
  (forall m, m ∈ ms -> m ∈ mounts) ->
  scan_mounts cwd p ms storages = Returned r ->
  r = storages \/ exists tok, mount_token mounts tok /\ r = storages ∪ {[tok]}.
Proof.
  intros Hms. induction ms as [|m ms IH]; cbn [scan_mounts]; intros H.
  - inversion H. auto.
  - destruct (Str.startswith p m).
    + destruct (Path.relpath cwd p m) as [rel|]; [|discriminate].
      inversion H. right. eexists. split; [|reflexivity].
      exists m, (hd "" (Str.split Path.sep rel)).
      split; [apply Hms; left|]. split; [reflexivity|].
      split; [apply remove_char_no_char|].
      unfold Path.sep. rewrite split_char_head. apply before_first_no_char.
    + apply IH; [|exact H]. intros m' Hm'. apply Hms. right. exact Hm'.
Qed.

Lemma relpath_none cwd p m : Path.relpath cwd p m = None -> p = "".
Proof.
  unfold Path.relpath. destruct (String.eqb p "") eqn:Hp.
  - intros _. apply String.eqb_eq, Hp.
  - cbv zeta. destruct (_ ++ _)%list; discriminate.
Qed.

Lemma scan_mounts_nonempty_path cwd p ms storages :
  p <> "" -> exists r, scan_mounts cwd p ms storages = Returned r.
Proof.
  intros Hp. induction ms as [|m ms IH]; cbn [scan_mounts]; [eauto|].
  destruct (Str.startswith p m); [|exact IH].
  destruct (relpath_some cwd p m Hp) as [rel ->]. eauto.
Qed.

Section FindMountsProperties.

Variable iter_order : gset string -> list string.
Hypothesis iter_order_perm : forall s, iter_order s ≡ₚ elements s.

(** X16: when no path starts with a mount of the set, [find_mounts]
    returns the empty set; in particular for no paths or no mounts. *)
Theorem find_mounts_no_match (cwd : string) (paths : list string) (mounts : gset string) :
  (forall p m, p ∈ paths -> m ∈ mounts -> Str.startswith p m = false) ->
  find_mounts iter_order cwd (PathList paths) (MountSet mounts) = Returned ∅.
Proof.
  intros Hno. unfold find_mounts. generalize (∅ : gset string).
  induction paths as [|p paths IH]; intros storages; cbn [ofold]; [reflexivity|].
  rewrite scan_mounts_none.
  - unfold mbind, outcome_bind. cbn [obind]. apply IH.
    intros p' m Hp'. apply Hno. right. exact Hp'.
  - apply Forall_forall. intros m Hm. apply Hno; [left|].
    apply (iter_order_elem iter_order iter_order_perm), Hm.
Qed.

Lemma find_mounts_fold_result cwd paths (mounts storages r : gset string) :
  ofold (fun storages p => scan_mounts cwd p (iter_order mounts) storages) storages paths
  = Returned r ->
  size r <= size storages + length paths
  /\ forall tok, tok ∈ r -> tok ∈ storages \/ mount_token mounts tok.
Proof.
  revert storages. induction paths as [|p paths IH]; intros storages; cbn [ofold].
  - intros H. inversion H; subst. split; [lia|auto].
  - unfold mbind, outcome_bind.
    destruct (scan_mounts cwd p (iter_order mounts) storages) as [s1| |] eqn:Hs;
      cbn [obind]; try discriminate.
    intros H. destruct (IH s1 H) as [Hsize Htok].
    apply (scan_mounts_result _ _ _ _ _ mounts) in Hs;
      [|intros m Hm; apply (iter_order_elem iter_order iter_order_perm), Hm].
    destruct Hs as [->|(tok & Hok & ->)].
    + split; [cbn [length]; lia|exact Htok].
    + split.
      * cbn [length]. pose proof (size_union_alt storages {[tok]}) as Hu.
        pose proof (subseteq_size ({[tok]} ∖ storages) {[tok]}) as Hd.
        rewrite size_singleton in Hd.
        assert (size ({[tok]} ∖ storages) <= 1).
        { apply Hd. intros x Hx. apply elem_of_difference in Hx as [Hx _]. exact Hx. }
        lia.
      * intros t Ht. destruct (Htok t Ht) as [Hin|Hm]; [|auto].
        apply elem_of_union in Hin as [Hin|Hin]; [auto|].
        apply elem_of_singleton in Hin. subst t. auto.
Qed.

(** X17: the set that [find_mounts] returns has at most one token for each
    path, and each token is a mount of the set without its separators,
    one '/', and a project code without '/'. *)
Theorem find_mounts_tokens
    (cwd : string) (paths : list string) (mounts found : gset string) (tok : string) :
  find_mounts iter_order cwd (PathList paths) (MountSet mounts) = Returned found ->
  size found <= length paths
  /\ (tok ∈ found -> mount_token mounts tok).
Proof.
  unfold find_mounts. intros H.
  destruct (find_mounts_fold_result cwd paths mounts ∅ found H) as [Hsize Htok].
  rewrite size_empty in Hsize. split; [exact Hsize|].
  intros Hin. destruct (Htok tok Hin) as [Hemp|Hok]; [|exact Hok].
  exfalso. revert Hemp. apply not_elem_of_empty.
Qed.

(** X18: [find_mounts] returns a set whenever no path is empty or no mount
    is empty; it can only fail, with ValueError, on an empty path that
    meets an empty mount. *)
Theorem find_mounts_returns_set
    (cwd : string) (paths : list string) (mounts : gset string) :
  "" ∉ paths \/ "" ∉ mounts ->
  exists found,
    find_mounts iter_order cwd (PathList paths) (MountSet mounts) = Returned found.
Proof.
  intros [Hp|Hm].
  - unfold find_mounts. generalize (∅ : gset string).
    induction paths as [|p paths IH]; intros storages; cbn [ofold]; [eauto|].
    destruct (scan_mounts_nonempty_path cwd p (iter_order mounts) storages) as [r ->].
    + intros ->. apply Hp. left.
    + apply IH. intros Hin. apply Hp. right. exact Hin.
  - apply (find_mounts_returns iter_order iter_order_perm), Hm.
Qed.

End FindMountsProperties.

Lemma find_mounts_no_match_witness :
  find_mounts trie_order "/home/user" (PathList ["/usr/bin/python"; "/home/user/run"])
    (MountSet {["/scratch"; "/g/data"]})
  = Returned ∅.
Proof.
  apply (find_mounts_no_match trie_order trie_order_perm).
  intros p m Hp Hm.
  apply elem_of_union in Hm as [Hm|Hm]; apply elem_of_singleton in Hm; subst m;
    repeat (apply elem_of_cons in Hp as [->|Hp]; [reflexivity|]);
    inversion Hp.
Defined.

Lemma find_mounts_tokens_witness :
  size ({["gdata/xy99"]} : gset string) <= 2
  /\ ("gdata/xy99" ∈ ({["gdata/xy99"]} : gset string) ->
      mount_token {["/scratch"; "/g/data"]} "gdata/xy99").
Proof.
  apply (find_mounts_tokens trie_order trie_order_perm "/home/user"
           ["/g/data/xy99/bin/python"; "/usr/bin/payu-run"]
           {["/scratch"; "/g/data"]} {["gdata/xy99"]} "gdata/xy99").
  vm_compute. reflexivity.
Defined.

Lemma find_mounts_returns_set_witness :
  exists found,
    find_mounts trie_order "/home/user" (PathList ["/scratch/ab12/x"; "relative"])
      (MountSet {[""; "/scratch"]})
    = Returned found.
Proof.
  apply (find_mounts_returns_set trie_order trie_order_perm).
  left. intros Hin.
  repeat (apply elem_of_cons in Hin as [Hin|Hin]; [discriminate Hin|]).
  inversion Hin.
Defined.

(** ** The flag list of [generate_command] *)

Lemma resource_fold pbs_config keys (init : list pyval) :
  fold_left (resource_step pbs_config) keys init
  = (init ++ flat_map (resource_flag pbs_config) keys)%list.
Proof.
  revert init. induction keys as [|key keys IH]; intros init; cbn [fold_left flat_map].
  - rewrite app_nil_r. reflexivity.
  - rewrite IH. unfold resource_step, resource_flag.
    destruct (Py.truthy (default VNone (pbs_config !! key))).
    + cbn [Str.join]. rewrite <- app_assoc. reflexivity.
    + reflexivity.
Qed.

Lemma jobname_step_exact (pbs_jobname : pyval) (pbs_flags nflags : list pyval) st :
  jobname_flag pbs_jobname = Returned nflags ->
  (if Py.truthy pbs_jobname
   then name ← lift (Py.slice_to 15 pbs_jobname);
        mret (pbs_flags ++ [VStr ("-N " +:+ Py.str name)])%list
   else mret pbs_flags) st = (Returned (pbs_flags ++ nflags)%list, st).
Proof.
  unfold jobname_flag. destruct (Py.truthy pbs_jobname).
  - unfold mbind, outcome_bind, M_bind, lift.
    destruct (Py.slice_to 15 pbs_jobname); cbn [obind]; try discriminate.
    intros H. inversion H. reflexivity.
  - intros H. inversion H. rewrite app_nil_r. reflexivity.
Qed.

Section FlagProperties.

Variable iter_order : gset string -> list string.

(** X19: when the steps that can end the call have all succeeded (the
    configuration file was read, PROJECT is set, the job name can be cut,
    the join mode is known, the storage loop returned), the flag list is,
    in this order: queue, project, one flag for each configured resource
    among walltime, ncpus, mem, jobfs, the job name, the priority, -l wd,
    the join mode, the variables, the storage flag and the extra flags;
    and the state is the one that [pbs_env_init] left. *)
Theorem build_flags_list
    (w : world) (pbs_config : gmap string pyval) (pbs_vars : list (string * pyval))
    (st st1 : pstate) (project : string) (nflags : list pyval)
    (mounts storages : gset string) :
  pbs_env_init w st = (Returned tt, st1) ->
  environ st1 !! "PROJECT" = Some project ->
  jobname_flag (default (VStr (Path.basename (getcwd w))) (pbs_config !! "jobname"))
  = Returned nflags ->
  in_join_modes (default (VStr "n") (pbs_config !! "join")) = true ->
  storage_loop (default (VStorage []) (pbs_config !! "storage"))
    {["/scratch"; "/g/data"]} ∅
  = Returned (mounts, storages) ->
  build_flags iter_order w pbs_config pbs_vars st
  = (Returned
       (([VStr ("-q " +:+ Py.str (default (VStr "normal") (pbs_config !! "queue")));
          VStr ("-P " +:+ Py.str (default (VStr project) (pbs_config !! "project")))]
         ++ flat_map (resource_flag pbs_config) pbs_resources
         ++ nflags
         ++ priority_flag (default VNone (pbs_config !! "priority"))
         ++ [VStr "-l wd";
             VStr ("-j " +:+ Py.str (default (VStr "n") (pbs_config !! "join")));
             VStr ("-v " +:+ env_vstring pbs_vars)]
         ++ storage_flag iter_order storages
         ++ extra_flag (default VNone (pbs_config !! "qsub_flags")))%list,
        mounts, storages),
     st1).
Proof.
  intros Hinit Hproj Hname Hjoin Hloop.
  unfold build_flags. cbv zeta.
  rewrite (M_bind_step _ _ _ _ _ Hinit).
  rewrite (M_bind_step _ _ _ _ _ (environ_item_some _ _ _ Hproj)).
  rewrite resource_fold.
  match goal with
  | |- context [mbind _ (if Py.truthy _ then _ else mret ?fl)] =>
      rewrite (M_bind_step _ _ _ _ _ (jobname_step_exact _ fl _ st1 Hname))
  end.
  rewrite Hjoin. cbn [negb]. unfold mbind, M_bind, mret, M_ret, lift.
  rewrite Hloop.
  unfold priority_flag, storage_flag, extra_flag, env_vstring.
  destruct (Py.truthy (default VNone (pbs_config !! "priority")));
    destruct (String.eqb (Str.join "+" (iter_order storages)) "");
    destruct (Py.truthy (default VNone (pbs_config !! "qsub_flags")));
    cbn [app]; rewrite <- ?app_assoc; cbn [app]; rewrite ?app_nil_r; reflexivity.
Qed.

End FlagProperties.

Lemma build_flags_list_witness :
  build_flags trie_order sample_world
    {["walltime" := VStr "1:00:00"; "ncpus" := VInt 48; "mem" := VInt 0;
      "priority" := VInt 5; "join" := VStr "oe"; "qsub_flags" := VStr "-W umask=027"]}
    [("PAYU_PATH", VStr "/opt/payu/bin"); ("N", VInt 3)] sample_state
  = (Returned
       ([VStr "-q normal"; VStr "-P ab12"; VStr "-l walltime=1:00:00";
         VStr "-l ncpus=48"; VStr "-N experiment_with"; VStr "-p 5"; VStr "-l wd";
         VStr "-j oe"; VStr "-v PAYU_PATH=/opt/payu/bin,N=3"; VStr "-W umask=027"],
        {["/scratch"; "/g/data"]}, ∅),
     sample_state_init).
Proof.
  rewrite (build_flags_list trie_order sample_world
             {["walltime" := VStr "1:00:00"; "ncpus" := VInt 48; "mem" := VInt 0;
               "priority" := VInt 5; "join" := VStr "oe";
               "qsub_flags" := VStr "-W umask=027"]}
             [("PAYU_PATH", VStr "/opt/payu/bin"); ("N", VInt 3)]
             sample_state sample_state_init "ab12" [VStr "-N experiment_with"]
             {["/scratch"; "/g/data"]} ∅);
    first [exact sample_world_init | vm_compute; reflexivity].
Defined.

Lemma take_length n s : String.length (Str.take n s) = Nat.min n (String.length s).
Proof.
  revert s. induction n as [|n IH]; intros [|c s]; cbn; auto.
Qed.

Lemma take_prefix n s : Str.startswith s (Str.take n s) = true.
Proof.
  revert s. induction n as [|n IH]; intros [|c s]; cbn; auto.
  rewrite Ascii.eqb_refl. apply IH.
Qed.

Lemma take_all n s : String.length s <= n -> Str.take n s = s.
Proof.
  revert s. induction n as [|n IH]; intros [|c s]; cbn; intros H; auto; [lia|].
  rewrite IH; [reflexivity|lia].
Qed.

Section CommandExtras.

Variable iter_order : gset string -> list string.
Hypothesis iter_order_perm : forall s, iter_order s ≡ₚ elements s.

Lemma iter_order_empty : iter_order ∅ = [].
Proof.
  pose proof (iter_order_perm ∅) as H. rewrite elements_empty in H.
  apply Permutation_nil_r in H. exact H.
Qed.

(** X20: a job name that is a non-empty text gives the flag -N with its
    first 15 characters: the name itself when it has at most 15, never
    more than 15; a job name that is a number other than zero cannot be
    cut and ends the call with TypeError. *)
Theorem build_flags_jobname
    (w : world) (pbs_config : gmap string pyval) (pbs_vars : list (string * pyval))
    (st st1 : pstate) (project name : string) (z : Z)
    (mounts storages : gset string) :
  pbs_env_init w st = (Returned tt, st1) ->
  environ st1 !! "PROJECT" = Some project ->
  (pbs_config !! "jobname" = Some (VStr name) -> name <> "" ->
   in_join_modes (default (VStr "n") (pbs_config !! "join")) = true ->
   storage_loop (default (VStorage []) (pbs_config !! "storage"))
     {["/scratch"; "/g/data"]} ∅
   = Returned (mounts, storages) ->
   (exists pre post,
      build_flags iter_order w pbs_config pbs_vars st
      = (Returned ((pre ++ VStr ("-N " +:+ Str.take 15 name) :: post)%list,
                   mounts, storages), st1))
   /\ String.length (Str.take 15 name) <= 15
   /\ Str.startswith name (Str.take 15 name) = true
   /\ (String.length name <= 15 -> Str.take 15 name = name))
  /\ (pbs_config !! "jobname" = Some (VInt z) -> z <> 0%Z ->
      build_flags iter_order w pbs_config pbs_vars st = (Raised TypeError, st1)).
Proof.
  intros Hinit Hproj. split.
  - intros Hcfg Hname Hjoin Hloop. split; [|split; [|split]].
    + eexists _, _.
      rewrite (build_flags_list iter_order w pbs_config pbs_vars st st1 project
                 [VStr ("-N " +:+ Str.take 15 name)] mounts storages
                 Hinit Hproj); [| |exact Hjoin|exact Hloop].
      * rewrite (app_assoc _ (flat_map _ _)). reflexivity.
      * rewrite Hcfg. cbn [default from_option id]. unfold jobname_flag.
        cbn [Py.truthy]. apply String.eqb_neq in Hname. rewrite Hname. reflexivity.
    + rewrite take_length. lia.
    + apply take_prefix.
    + apply take_all.
  - intros Hcfg Hz. unfold build_flags. cbv zeta.
    rewrite (M_bind_step _ _ _ _ _ Hinit).
    rewrite (M_bind_step _ _ _ _ _ (environ_item_some _ _ _ Hproj)).
    rewrite Hcfg. cbn [default from_option id Py.truthy].
    apply Z.eqb_neq in Hz. rewrite Hz. reflexivity.
Qed.

Lemma join_vals_nontext sep (l : list pyval) (v : pyval) :
  v ∈ l -> is_text v = false -> Py.join_vals sep l = Raised TypeError.
Proof.
  intros Hin Hv. induction Hin as [v l|v x l Hin IH].
  - destruct v; try discriminate; destruct l; reflexivity.
  - cbn [Py.join_vals]. destruct x; try reflexivity.
    destruct l as [|y l]; [inversion Hin|]. cbn [Py.join_vals] in *.
    rewrite (IH Hv). reflexivity.
Qed.

Lemma join_vals_texts sep (l : list string) :
  Py.join_vals sep (map VStr l) = Returned (Str.join sep l).
Proof.
  induction l as [|x l IH]; [reflexivity|].
  destruct l as [|y l]; [reflexivity|].
  change (map VStr (x :: y :: l)) with (VStr x :: map VStr (y :: l)).
  cbn [Py.join_vals map] in *. rewrite IH. reflexivity.
Qed.

Lemma extra_flags_not_text_never_returned
    (w : world) (pbs_script : string) (pbs_config : gmap string pyval)
    (pbs_vars : option (list (string * pyval))) (st : pstate) (v : pyval) :
  pbs_config !! "qsub_flags" = Some v ->
  Py.truthy v = true -> is_text v = false ->
  forall cmd st',
    generate_command iter_order w pbs_script pbs_config pbs_vars st
    <> (Returned cmd, st').
Proof.
  intros Hcfg Ht Hv cmd st' H. unfold generate_command in H. cbv zeta in H.
  apply M_bind_returned in H as (acc & s1 & Hb & H).
  destruct acc as [[pbs_flags mounts] storages].
  apply M_bind_returned in H as (script' & s2 & _ & H).
  apply M_bind_returned in H as (found & s3 & _ & H). cbv zeta in H.
  apply M_bind_returned in H as (? & s4 & _ & H).
  unfold final_command in H.
  apply M_bind_returned in H as (flags & s5 & Hj & _).
  apply lift_returned in Hj as [Hj _].
  destruct (build_flags_storage iter_order _ _ _ _ _ _ _ _ Hb) as [_ [pre Hflags]].
  rewrite Hcfg in Hflags. cbn [default from_option id] in Hflags.
  rewrite Ht in Hflags.
  rewrite (join_vals_nontext " " pbs_flags v) in Hj; [discriminate| |exact Hv].
  rewrite Hflags, !elem_of_app. right. right. left.
Qed.

(** X21: extra flags that are not a text (a list, a number other than
    zero, True) never give a command: the flag list then holds a value
    that is not a text and joining it raises TypeError. *)
Theorem generate_command_extra_flags_not_text
    (w : world) (pbs_script : string) (pbs_config : gmap string pyval)
    (pbs_vars : option (list (string * pyval))) (st : pstate) (v : pyval) :
  pbs_config !! "qsub_flags" = Some v ->
  Py.truthy v = true -> is_text v = false ->
  returned (generate_command iter_order w pbs_script pbs_config pbs_vars st).1 = false.
Proof.
  intros Hcfg Ht Hv.
  destruct (generate_command iter_order w pbs_script pbs_config pbs_vars st)
    as [[cmd|e|c] st'] eqn:H; try reflexivity.
  exfalso.
  apply (extra_flags_not_text_never_returned w pbs_script pbs_config pbs_vars st v
           Hcfg Ht Hv cmd st' H).
Qed.

(** X22: with an empty configuration and an absolute script, when the
    configuration file was read, PROJECT is set and the modules load, the
    command is qsub with the defaulted flags only: the queue normal, the
    project of the environment, the name of the working directory cut to
    15 characters (no -N flag when that name is empty), -l wd, -j n and
    the -v flag, which is there also without variables, and then the
    interpreter and the script. *)
Theorem generate_command_defaults
    (w : world) (pbs_script : string) (pbs_vars : option (list (string * pyval)))
    (st st1 st2 : pstate) (project : string) :
  pbs_env_init w st = (Returned tt, st1) ->
  environ st1 !! "PROJECT" = Some project ->
  Path.isabs pbs_script = true ->
  envmod_load w st1 = (Returned tt, st2) ->
  generate_command iter_order w pbs_script ∅ pbs_vars st
  = (Returned
       ("qsub "
        +:+ Str.join " "
              (["-q normal"; "-P " +:+ project]
               ++ (if String.eqb (Path.basename (getcwd w)) "" then []
                   else ["-N " +:+ Str.take 15 (Path.basename (getcwd w))])
               ++ ["-l wd"; "-j n"; "-v " +:+ env_vstring (default [] pbs_vars)])%list
        +:+ " -- " +:+ executable w +:+ " " +:+ pbs_script),
     st2).
Proof.
  intros Hinit Hproj Habs Henv. unfold generate_command. cbv zeta.
  assert (Hname : jobname_flag (default (VStr (Path.basename (getcwd w)))
                                  ((∅ : gmap string pyval) !! "jobname"))
                  = Returned (map VStr
                      (if String.eqb (Path.basename (getcwd w)) "" then []
                       else ["-N " +:+ Str.take 15 (Path.basename (getcwd w))]))).
  { rewrite lookup_empty. cbn [default from_option id]. unfold jobname_flag.
    cbn [Py.truthy].
    destruct (String.eqb (Path.basename (getcwd w)) ""); reflexivity. }
  rewrite (M_bind_step _ _ _ _ _
             (build_flags_list iter_order w ∅ (default [] pbs_vars) st st1 project _
                {["/scratch"; "/g/data"]} ∅ Hinit Hproj Hname eq_refl eq_refl)).
  unfold resolve_script. rewrite Habs.
  unfold mbind at 1, M_bind at 1, mret at 1, M_ret at 1.
  destruct (find_mounts_returns iter_order iter_order_perm (getcwd w)
              [executable w; pbs_script] {["/scratch"; "/g/data"]}
              default_mounts_nonempty) as [found Hfound].
  unfold mbind at 1, M_bind at 1, lift at 1. rewrite Hfound.
  rewrite (M_bind_step _ _ _ _ _ Henv).
  unfold final_command.
  match goal with
  | |- context [Py.join_vals " " ?l] =>
      replace l with
        (map VStr
           (["-q normal"; "-P " +:+ project]
            ++ (if String.eqb (Path.basename (getcwd w)) "" then []
                else ["-N " +:+ Str.take 15 (Path.basename (getcwd w))])
            ++ ["-l wd"; "-j n"; "-v " +:+ env_vstring (default [] pbs_vars)])%list)
  end.
  - unfold mbind, M_bind, lift. rewrite join_vals_texts. reflexivity.
  - unfold resource_flag, pbs_resources, priority_flag, storage_flag, extra_flag.
    cbn [flat_map]. rewrite !lookup_empty, iter_order_empty.
    destruct (String.eqb (Path.basename (getcwd w)) ""); reflexivity.
Qed.

End CommandExtras.

Lemma build_flags_jobname_witness :
  (exists pre post,
     build_flags trie_order sample_world
       {["jobname" := VStr "a_rather_long_job_name"]} [] sample_state
     = (Returned ((pre ++ VStr ("-N " +:+ Str.take 15 "a_rather_long_job_name") :: post)%list,
                  {["/scratch"; "/g/data"]}, ∅), sample_state_init))
  /\ build_flags trie_order sample_world {["jobname" := VInt 2024]} [] sample_state
     = (Raised TypeError, sample_state_init).
Proof.
  destruct (build_flags_jobname trie_order sample_world
              {["jobname" := VStr "a_rather_long_job_name"]} [] sample_state
              sample_state_init "ab12" "a_rather_long_job_name" 1
              {["/scratch"; "/g/data"]} ∅ sample_world_init eq_refl) as [Htext _].
  destruct (build_flags_jobname trie_order sample_world
              {["jobname" := VInt 2024]} [] sample_state
              sample_state_init "ab12" "" 2024 ∅ ∅ sample_world_init eq_refl)
    as [_ Hint].
  split.
  - apply Htext; first [reflexivity | discriminate].
  - apply Hint; first [reflexivity | discriminate].
Defined.

Lemma generate_command_extra_flags_not_text_witness :
  returned (generate_command trie_order sample_world "payu-run"
              {["qsub_flags" := VStrList ["-W"; "umask=027"]]} None sample_state).1
  = false.
Proof.
  apply (generate_command_extra_flags_not_text trie_order sample_world "payu-run"
           {["qsub_flags" := VStrList ["-W"; "umask=027"]]} None sample_state
           (VStrList ["-W"; "umask=027"])); reflexivity.
Defined.

Lemma generate_command_defaults_witness :
  generate_command trie_order sample_world "/opt/payu/bin/payu-run" ∅
    (Some [("PAYU_PATH", VStr "/opt/payu/bin")]) sample_state
  = (Returned
       ("qsub "
        +:+ Str.join " "
              (["-q normal"; "-P " +:+ "ab12"]
               ++ (if String.eqb (Path.basename (getcwd sample_world)) "" then []
                   else ["-N " +:+ Str.take 15 (Path.basename (getcwd sample_world))])
               ++ ["-l wd"; "-j n";
                   "-v " +:+ env_vstring
                               (default [] (Some [("PAYU_PATH", VStr "/opt/payu/bin")]))])%list
        +:+ " -- " +:+ executable sample_world +:+ " " +:+ "/opt/payu/bin/payu-run"),
     sample_state_init).
Proof.
  apply (generate_command_defaults trie_order trie_order_perm sample_world
           "/opt/payu/bin/payu-run" (Some [("PAYU_PATH", VStr "/opt/payu/bin")])
           sample_state sample_state_init sample_state_init "ab12");
    first [exact sample_world_init | reflexivity].
Defined.

(** ** The script path *)

Lemma join_relative_suffix (a b : string) :
  Path.isabs b = false -> exists dir, Path.join a b = dir +:+ b.
Proof.
  intros Hb. unfold Path.join. unfold Path.isabs in Hb. rewrite Hb.
  destruct (_ || _)%bool.
  - exists a. reflexivity.
  - exists (a +:+ Path.sep). rewrite app_str_assoc. reflexivity.
Qed.

(** X23: an absolute script path is taken as it is, without looking
    whether the file exists.  A relative one is joined to PAYU_PATH, or to
    the directory of argv[0] when there is no such variable: the result
    ends with the script path and is returned only when that file exists,
    otherwise the assertion fails; a PAYU_PATH that is not a text raises
    TypeError.  The process state is never changed. *)
Theorem resolve_script_cases
    (w : world) (pbs_script : string) (pbs_vars : list (string * pyval)) (st : pstate) :
  let payu_bin := Py.assoc_get pbs_vars "PAYU_PATH" (VStr (Path.dirname (argv0 w))) in
  (Path.isabs pbs_script = true ->
   resolve_script w pbs_script pbs_vars st = (Returned pbs_script, st))
  /\ (Path.isabs pbs_script = false ->
      (forall bin, payu_bin = VStr bin ->
         (exists dir, Path.join bin pbs_script = dir +:+ pbs_script)
         /\ resolve_script w pbs_script pbs_vars st
            = (if isfile w (Path.join bin pbs_script)
               then Returned (Path.join bin pbs_script)
               else Raised AssertionError, st))
      /\ (is_text payu_bin = false ->
          resolve_script w pbs_script pbs_vars st = (Raised TypeError, st))).
Proof.
  intros payu_bin. unfold resolve_script. fold payu_bin. split.
  - intros ->. reflexivity.
  - intros Hrel. rewrite Hrel. split.
    + intros bin ->. split; [apply join_relative_suffix, Hrel|].
      destruct (isfile w (Path.join bin pbs_script)); reflexivity.
    + intros Ht. destruct payu_bin; try reflexivity. discriminate Ht.
Qed.

Lemma resolve_script_cases_witness :
  resolve_script no_conf_world "/missing/script" [] sample_state
  = (Returned "/missing/script", sample_state)
  /\ resolve_script no_conf_world "payu-run" [("PAYU_PATH", VStr "/opt/payu/bin")]
       sample_state
     = (Raised AssertionError, sample_state)
  /\ resolve_script sample_world "payu-run" [("PAYU_PATH", VInt 3)] sample_state
     = (Raised TypeError, sample_state).
Proof.
  split; [|split].
  - apply (resolve_script_cases no_conf_world "/missing/script" [] sample_state).
    reflexivity.
  - destruct (resolve_script_cases no_conf_world "payu-run"
                [("PAYU_PATH", VStr "/opt/payu/bin")] sample_state) as [_ Hrel].
    destruct (Hrel eq_refl) as [Htext _].
    destruct (Htext "/opt/payu/bin" eq_refl) as [_ ->]. reflexivity.
  - destruct (resolve_script_cases sample_world "payu-run"
                [("PAYU_PATH", VInt 3)] sample_state) as [_ Hrel].
    destruct (Hrel eq_refl) as [_ Hnot]. apply Hnot. reflexivity.
Defined.

(** ** The loop over the configured storage *)

Lemma storage_step_outcome acc item :
  (exists acc', storage_step acc item = Returned acc')
  \/ storage_step acc item = Raised ValueError.
Proof.
  destruct acc as [mounts storages]. unfold storage_step, Py.unpack2.
  destruct (Str.chars item) as [|a [|b [|c l]]]; cbn; eauto.
Qed.

Lemma storage_step_tokens acc item acc' (mounts0 storages0 : gset string) :
  storage_step acc item = Returned acc' ->
  (mounts0 ⊆ acc.1 /\ forall tok, tok ∈ acc.2 -> tok ∈ storages0 \/ short_token tok) ->
  mounts0 ⊆ acc'.1 /\ forall tok, tok ∈ acc'.2 -> tok ∈ storages0 \/ short_token tok.
Proof.
  destruct acc as [mounts storages]. unfold storage_step, Py.unpack2.
  destruct item as [|a [|b [|c item]]]; cbn; try discriminate.
  intros H [Hm Ht]. inversion H; subst. cbn [fst snd]. split.
  - intros x Hx. apply elem_of_union. left. apply Hm, Hx.
  - intros tok Htok. apply elem_of_union in Htok as [Htok|Htok]; [apply Ht, Htok|].
    apply elem_of_singleton in Htok. right. exists a, b. exact Htok.
Qed.

(** X24: the loop over a storage mapping raises ValueError as soon as one
    mount name does not have exactly two characters, whatever the project
    lists are.  When it returns, the mounts it was given are kept and
    every token added is three characters long: the first character of a
    name, '/', and its second character. *)
Theorem storage_loop_keys
    (d : list (string * list string)) (mounts storages : gset string) :
  (forall key, key ∈ map fst d -> String.length key <> 2 ->
     storage_loop (VStorage d) mounts storages = Raised ValueError)
  /\ (forall mounts' storages',
        storage_loop (VStorage d) mounts storages = Returned (mounts', storages') ->
        mounts ⊆ mounts'
        /\ forall tok, tok ∈ storages' -> tok ∈ storages \/ short_token tok).
Proof.
  unfold storage_loop, mbind, outcome_bind. cbn [Py.iter obind]. split.
  - intros key Hin Hlen. apply (ofold_raises _ _ _ _ Hin).
    + intros acc y. apply storage_step_outcome.
    + intros acc. apply storage_step_long_key.
      intros Hc. apply Hlen. clear -Hc.
      destruct key as [|a [|b [|c key]]]; cbn in *; congruence.
  - intros mounts' storages' H.
    refine (ofold_invariant
              (fun acc => mounts ⊆ acc.1
                          /\ forall tok, tok ∈ acc.2 -> tok ∈ storages \/ short_token tok)
              _ _ (fun acc x acc' => storage_step_tokens acc x acc' mounts storages)
              (mounts, storages) (mounts', storages') _ H).
    cbn [fst snd]. split; [reflexivity|auto].
Qed.

Lemma storage_loop_keys_witness :
  storage_loop (VStorage [("ab", ["xy99"]); ("/scratch", ["ab12"])])
    {["/scratch"; "/g/data"]} ∅
  = Raised ValueError.
Proof.
  destruct (storage_loop_keys [("ab", ["xy99"]); ("/scratch", ["ab12"])]
              {["/scratch"; "/g/data"]} ∅) as [Hraise _].
  apply (Hraise "/scratch").
  - apply list_elem_of_further, list_elem_of_here.
  - discriminate.
Defined.

(** ** Continuation lines of a block *)

Lemma replace_clean_prefix (a s : string) :
  Str.contains newline a = false ->
  Str.replace newline_tab "" (a +:+ s) = a +:+ Str.replace newline_tab "" s.
Proof.
  unfold Str.replace, newline. induction a as [|c a IH]; intros H.
  - rewrite !app_empty_l. reflexivity.
  - rewrite contains_char_cons in H. apply orb_false_elim in H as [Hc Ha].
    rewrite !app_String. cbn [Str.replace_go]. unfold newline_tab at 1.
    cbn [Str.startswith]. rewrite Hc, (IH Ha). reflexivity.
Qed.

Lemma replace_continuation (s : string) :
  Str.replace newline_tab "" (newline_tab +:+ s) = Str.replace newline_tab "" s.
Proof. reflexivity. Qed.

(** X25: a line of a block that goes on after a line end and a tab is put
    together again before the attributes are read: the body made of a,
    the continuation mark, b and a line end gives the single line a b
    (and the empty line after the last line end, which is passed over). *)
Theorem entry_attribs_continuation (k a b : string) :
  Str.contains newline k = false ->
  Str.contains newline a = false ->
  Str.contains newline b = false ->
  entry_attribs (k +:+ newline +:+ (a +:+ newline_tab +:+ b +:+ newline))
  = Returned (before_first "." k, [a +:+ b; ""])
  /\ attribs_dict [a +:+ b; ""] = attribs_dict [a +:+ b].
Proof.
  intros Hk Ha Hb. split.
  - rewrite (entry_attribs_lines _ _ Hk). f_equal. f_equal.
    rewrite (replace_clean_prefix _ _ Ha), replace_continuation.
    rewrite (replace_clean_prefix _ _ Hb).
    change (Str.replace newline_tab "" newline) with newline.
    rewrite <- app_str_assoc. unfold newline at 1 2.
    rewrite split_app_sep; [reflexivity|].
    rewrite contains_char_app. unfold newline in Ha, Hb. rewrite Ha, Hb. reflexivity.
  - unfold attribs_dict. cbn [ofold]. unfold mbind, outcome_bind.
    destruct (attribs_step ∅ (a +:+ b)); reflexivity.
Qed.

Lemma entry_attribs_continuation_witness :
  entry_attribs ("123.r-man2" +:+ newline +:+
                 ("    Resource_List = ncpus=48" +:+ newline_tab +:+ ",mem=190GB"
                  +:+ newline))
  = Returned ("123", ["    Resource_List = ncpus=48" +:+ ",mem=190GB"; ""])
  /\ attribs_dict ["    Resource_List = ncpus=48" +:+ ",mem=190GB"; ""]
     = attribs_dict ["    Resource_List = ncpus=48" +:+ ",mem=190GB"].
Proof.
  apply (entry_attribs_continuation "123.r-man2" "    Resource_List = ncpus=48"
           ",mem=190GB"); reflexivity.
Defined.
